(** * Booking backend (server.js): slot availability, booking, listing, cancelling

    A shallow embedding of the four request handlers of [server.js] and of
    the two file helpers [readData] / [writeData] they share.

    Modelling conventions
    - A JavaScript string is a [string], its characters standing for code
      units; the primitives used by the code ([split], [substring],
      [replace], template literals) are written out below with the behaviour
      ECMAScript gives them.
    - The JSON object kept in [slots-data.json] is a finite map from date
      strings to arrays of slot strings, [gmap string (list string)]: these
      are its own properties.  A lookup [data[date]] that finds no own
      property goes on to [Object.prototype], so a date such as
      [constructor] or [__proto__] yields a value that is not an array.  The
      order in which [Object.keys] enumerates the dates is not modelled.
    - The [date] and [slot] of a request are either missing ([None]) or
      strings; [client] and [vehicle] are arbitrary JSON values.
    - The file system is explicit state: the data file is absent, unreadable
      or holds a store; every [fs] call is recorded; a write may fail, and a
      failed write leaves the file as it was.
    - [new Date(date).getDay()] is the platform's (time-zone dependent)
      classification of a date string; [GET /slots] is parametrised by it.
    - [GET /health] reads the clock only and is left out. *)

From Stdlib Require Import ZArith Ascii String.
From stdpp Require Import base strings list gmap fin_maps.

Local Open Scope string_scope.

(** ** JavaScript string and array primitives *)

Module Js.

(** [s.split(sep)] for a one-character separator: every occurrence of [sep]
    ends a segment; the result always has at least one segment. *)
Fixpoint split (sep : ascii) (s : string) : list string :=
  match s with
  | EmptyString => [EmptyString]
  | String c rest =>
      if Ascii.eqb c sep then EmptyString :: split sep rest
      else match split sep rest with
           | seg :: segs => String c seg :: segs
           | [] => [String c EmptyString]
           end
  end.

(** [s.substring(start, stop)]; [stop] omitted means the end of [s].  Both
    indices are clamped to the length and swapped when out of order. *)
Definition substring (s : string) (start : nat) (stop : option nat) : string :=
  let e := default (String.length s) stop in
  let lo := Nat.min start e in
  let hi := Nat.max start e in
  String.substring lo (hi - lo) s.

(** [s.replace(pat, rep)] with one-character string arguments: only the
    first occurrence is replaced. *)
Fixpoint replace (pat rep : ascii) (s : string) : string :=
  match s with
  | EmptyString => EmptyString
  | String c rest =>
      if Ascii.eqb c pat then String rep rest
      else String c (replace pat rep rest)
  end.

(** [arr.includes(x)] on an array of strings. *)
Definition includes (arr : list string) (x : string) : bool :=
  bool_decide (x ∈ arr).

(** Truthiness of a possibly missing string: [undefined] and [''] are falsy. *)
Definition truthy (v : option string) : bool :=
  match v with
  | None => false
  | Some s => negb (String.eqb s "")
  end.

(** The names of the properties of [Object.prototype], which every object
    parsed from JSON inherits. *)
Definition object_prototype_keys : list string :=
  ["constructor"; "__defineGetter__"; "__defineSetter__"; "hasOwnProperty";
   "__lookupGetter__"; "__lookupSetter__"; "isPrototypeOf";
   "propertyIsEnumerable"; "toString"; "valueOf"; "__proto__";
   "toLocaleString"].

Definition inherited (key : string) : bool :=
  bool_decide (key ∈ object_prototype_keys).

(** Whether a character occurs in a string. *)
Fixpoint occurs (c : ascii) (s : string) : bool :=
  match s with
  | EmptyString => false
  | String c' rest => Ascii.eqb c' c || occurs c rest
  end.

End Js.

(** ** Booking identifiers *)

(** The [id] built by [GET /bookings]: [`${date}-${slot.replace(':', '-')}`]. *)
Definition booking_id (date slot : string) : string :=
  date +:+ "-" +:+ Js.replace ":" "-" slot.

(** The first lines of [DELETE /booking/:id]:
    [const [date, time] = bookingId.split('-')] and then
    [`${time.substring(0, 2)}:${time.substring(3)}`].  When the split has a
    single segment [time] is [undefined] and the property access throws;
    that is [None] here. *)
Definition decode_id (bookingId : string) : option (string * string) :=
  match Js.split "-" bookingId with
  | date :: time :: _ =>
      Some (date, Js.substring time 0 (Some 2) +:+ ":" +:+ Js.substring time 3 None)
  | _ => None
  end.

(** ** The data file, the console and the effects of a request *)

(** The object stored in [slots-data.json]. *)
Abbreviation Store := (gmap string (list string)).

(** What [data[key]] evaluates to: the array of an own property, a value
    inherited from [Object.prototype] (a function, or the prototype itself
    for [__proto__]: truthy, and without an [includes] method), or
    [undefined]. *)
Inductive property :=
  | Own (arr : list string)
  | Inherited
  | Undefined.

Definition property_of (data : Store) (key : string) : property :=
  match data !! key with
  | Some arr => Own arr
  | None => if Js.inherited key then Inherited else Undefined
  end.

#[global] Instance property_eq_dec : EqDecision property.
Proof. solve_decision. Defined.

(** What is on disk at [DATA_FILE]: nothing, something that cannot be read
    or parsed, or the JSON text of a store. *)
Inductive data_file :=
  | Missing
  | Unreadable
  | Holds (data : Store).

Inductive fs_call :=
  | ExistsSync
  | ReadFileSync
  | WriteFileSync (data : Store).

Inductive exn :=
  | TypeError
  | IOError.

(** [faults] schedules the coming calls of [fs.writeFileSync]: [true] makes
    the call throw and leaves the file as it was; an exhausted schedule
    means the disk works.  [fs_log] and [console] grow at the end. *)
Record world := World {
  file : data_file;
  faults : list bool;
  fs_log : list fs_call;
  console : list string;
}.

Inductive outcome (A : Type) :=
  | Returned (a : A)
  | Thrown (e : exn).
Arguments Returned {A} a.
Arguments Thrown {A} e.

Definition io (A : Type) : Type := world → outcome A * world.

#[global] Instance io_ret : MRet io := λ A a w, (Returned a, w).
#[global] Instance io_bind : MBind io := λ A B k m w,
  match m w with
  | (Returned a, w') => k a w'
  | (Thrown e, w') => (Thrown e, w')
  end.

Definition throw {A} (e : exn) : io A := λ w, (Thrown e, w).

(** [try { body } catch (error) { handler }] *)
Definition try_catch {A} (body : io A) (handler : exn → io A) : io A := λ w,
  match body w with
  | (Returned a, w') => (Returned a, w')
  | (Thrown e, w') => handler e w'
  end.

Definition logged (c : fs_call) (w : world) : world :=
  World (file w) (faults w) (fs_log w ++ [c]) (console w).

Definition printed (line : string) (w : world) : world :=
  World (file w) (faults w) (fs_log w) (console w ++ [line]).

Definition console_out (line : string) : io () := λ w, (Returned (), printed line w).

Module Fs.

Definition existsSync : io bool := λ w,
  (Returned (match file w with Missing => false | _ => true end),
   logged ExistsSync w).

(** [JSON.parse(fs.readFileSync(DATA_FILE, 'utf8'))] *)
Definition readJSON : io Store := λ w,
  (match file w with Holds data => Returned data | _ => Thrown IOError end,
   logged ReadFileSync w).

(** [fs.writeFileSync(DATA_FILE, JSON.stringify(data), 'utf8')] *)
Definition writeFileSync (data : Store) : io () := λ w,
  let w1 := logged (WriteFileSync data) w in
  match faults w with
  | true :: later => (Thrown IOError, World (file w1) later (fs_log w1) (console w1))
  | false :: later => (Returned (), World (Holds data) later (fs_log w1) (console w1))
  | [] => (Returned (), World (Holds data) [] (fs_log w1) (console w1))
  end.

End Fs.

(** ** Requests and responses *)

Local Set Warnings "-register-all".

(** A value parsed from JSON.  A number is given by its rendering
    [String(n)]; the fields of an object are its own properties. *)
Inductive json :=
  | JNull
  | JBool (b : bool)
  | JNumber (text : string)
  | JString (s : string)
  | JArray (items : list json)
  | JObject (fields : list (string * json)).

Module Json.

(** The own property [key] of an object; of two fields with the same key
    [JSON.parse] keeps the later one. *)
Fixpoint field (key : string) (fields : list (string * json)) : option json :=
  match fields with
  | [] => None
  | (k, v) :: rest =>
      match field key rest with
      | Some later => Some later
      | None => if String.eqb k key then Some v else None
      end
  end.

(** [value.name] for the [client] of a request, [undefined] being [None]:
    only an object can have the property, and [Object.prototype] has none
    of that name. *)
Definition name (client : option json) : option json :=
  match client with
  | Some (JObject fields) => field "name" fields
  | _ => None
  end.

Definition truthy (v : json) : bool :=
  match v with
  | JNull => false
  | JBool b => b
  | JNumber text => negb (String.eqb text "0")
  | JString s => negb (String.eqb s "")
  | JArray _ | JObject _ => true
  end.

(** [ToString(v)], as a template literal applies it; [None] is a TypeError.
    An array joins the renderings of its items, with [null] as the empty
    string.  An object is rendered by [Object.prototype.toString] unless it
    has an own [toString]: a parsed value is never callable, and then
    neither [toString] nor [valueOf] yields a primitive. *)
Fixpoint to_string (v : json) : option string :=
  match v with
  | JNull => Some "null"
  | JBool b => Some (if b then "true" else "false")
  | JNumber text => Some text
  | JString s => Some s
  | JArray items =>
      (fix join (items : list json) : option string :=
         match items with
         | [] => Some ""
         | item :: rest =>
             first ← match item with JNull => Some "" | _ => to_string item end;
             match rest with
             | [] => Some first
             | _ :: _ => others ← join rest; Some (first +:+ "," +:+ others)
             end
         end) items
  | JObject fields =>
      match field "toString" fields with
      | Some _ => None
      | None => Some "[object Object]"
      end
  end.

End Json.

(** The body of [POST /book]: [{ date, slot, client, vehicle }]. *)
Record book_request := BookRequest {
  req_date : option string;
  req_slot : option string;
  req_client : option json;
  req_vehicle : option json;
}.

Record booking := Booking {
  b_date : string;
  b_slot : string;
  b_id : string;
}.

Inductive body :=
  | SlotsBody (date : string) (available booked : list string)
  | ErrorBody (error : string)
  | FailureBody (error : string)
  | BookedBody (date slot : string)
  | BookingsBody (totalBookings : nat) (bookings : list booking)
  | DeletedBody (message : string).

Record response := Response { status : nat; payload : body }.

(** The value of a request field when it is truthy. *)
Definition required (v : option string) : option string :=
  match v with
  | Some s => if Js.truthy v then Some s else None
  | None => None
  end.

(** ** The server *)

Definition DEFAULT_SLOTS : list string :=
  ["08:00"; "09:00"; "10:00"; "11:00"; "14:00"; "15:00"; "16:00"; "17:00"].

Definition SATURDAY_SLOTS : list string :=
  ["09:00"; "10:00"; "11:00"; "12:00"].

Definition readData : io Store :=
  Fs.existsSync ≫= λ present : bool,
  if negb present then
    _ ← Fs.writeFileSync ∅; mret ∅
  else
    try_catch Fs.readJSON
      (λ _, _ ← console_out "Erreur lors de la lecture des données:"; mret ∅).

Definition writeData (data : Store) : io bool :=
  try_catch (_ ← Fs.writeFileSync data; mret true)
    (λ _, _ ← console_out "Erreur lors de l'écriture des données:"; mret false).

(** [value.includes(x)]: only an array has the method; calling it on an
    inherited value, or reading it off [undefined], throws. *)
Definition call_includes (value : property) (x : string) : io bool :=
  match value with
  | Own arr => mret (Js.includes arr x)
  | Inherited | Undefined => throw TypeError
  end.

(** [arr.filter(callback)] with a callback that may throw: the items are
    visited in order and the first exception ends the loop. *)
Fixpoint filter_io (callback : string → io bool) (arr : list string) : io (list string) :=
  match arr with
  | [] => mret []
  | x :: rest =>
      callback x ≫= λ keep : bool,
      kept ← filter_io callback rest;
      mret (if keep then x :: kept else kept)
  end.

(** [client?.name || 'anonyme'] *)
Definition client_label (client : option json) : json :=
  match Json.name client with
  | Some value => if Json.truthy value then value else JString "anonyme"
  | None => JString "anonyme"
  end.

(** The string that a template literal makes of a value. *)
Definition interpolate (v : json) : io string :=
  match Json.to_string v with
  | Some text => mret text
  | None => throw TypeError
  end.

Section Server.

(** [new Date(date).getDay()]: a day number from 0 (Sunday) to 6 (Saturday)
    in the server's local time zone, or [None] for [NaN]. *)
Variable getDay : string → option nat.

Definition slots_for (date : string) : list string :=
  if bool_decide (getDay date = Some 6) then SATURDAY_SLOTS else DEFAULT_SLOTS.

(** [GET /slots?date=...] *)
Definition get_slots (date : option string) : io response :=
  match required date with
  | None => mret (Response 400 (ErrorBody "Date requise sous format YYYY-MM-DD"))
  | Some date =>
      data ← readData;
      let bookedSlots :=
        match property_of data date with
        | Undefined => Own []
        | value => value
        end in
      let allSlots := slots_for date in
      availableSlots ←
        filter_io (λ slot, call_includes bookedSlots slot ≫= λ found : bool,
                           mret (negb found)) allSlots;
      (* [bookedSlots] is an array here: both templates have slots, so the
         callback has run, and it throws on anything else *)
      let booked := match bookedSlots with Own arr => arr | _ => [] end in
      mret (Response 200 (SlotsBody date availableSlots booked))
  end.

End Server.

(** [POST /book] *)
Definition post_book (req : book_request) : io response :=
  match required (req_date req), required (req_slot req) with
  | Some date, Some slot =>
      data ← readData;
      let data :=
        match property_of data date with
        | Undefined => <[date := []]> data
        | _ => data
        end in
      call_includes (property_of data date) slot ≫= λ found : bool,
      if found then
        mret (Response 409 (FailureBody "Ce créneau est déjà réservé"))
      else
        let booked := default [] (data !! date) in
        let data := <[date := (booked ++ [slot])%list]> data in
        writeData data ≫= λ saved : bool,
        if saved then
          par ← interpolate (client_label (req_client req));
          _ ← console_out ("Réservation: " +:+ date +:+ " à " +:+ slot +:+ " par " +:+ par);
          mret (Response 200 (BookedBody date slot))
        else
          mret (Response 500 (FailureBody "Erreur lors de la sauvegarde"))
  | _, _ => mret (Response 400 (FailureBody "Date et créneau obligatoires"))
  end.

(** [GET /bookings] *)
Definition get_bookings : io response :=
  data ← readData;
  let formattedBookings :=
    flat_map (λ '(date, arr), map (λ slot, Booking date slot (booking_id date slot)) arr)
      (map_to_list data) in
  mret (Response 200 (BookingsBody (length formattedBookings) formattedBookings)).

(** [DELETE /booking/:id] *)
Definition delete_booking (bookingId : string) : io response :=
  match decode_id bookingId with
  | None => throw TypeError
  | Some (date, slot) =>
      data ← readData;
      match property_of data date with
      | Undefined => mret false
      | value => call_includes value slot
      end ≫= λ found : bool,
      if negb found then
        mret (Response 404 (FailureBody "Réservation introuvable"))
      else
        let remaining := filter (λ s, s ≠ slot) (default [] (data !! date)) in
        let data := <[date := remaining]> data in
        let data := if Nat.eqb (length remaining) 0 then delete date data else data in
        writeData data ≫= λ saved : bool,
        if saved then
          _ ← console_out ("Réservation supprimée: " +:+ date +:+ " à " +:+ slot);
          mret (Response 200 (DeletedBody "Réservation supprimée avec succès"))
        else
          mret (Response 500 (FailureBody "Erreur lors de la suppression"))
  end.

(** ** A calendar for [getDay]

    The day of the week that [new Date(date).getDay()] yields for a
    well-formed [YYYY-MM-DD] string: such a string names midnight UTC of that
    day, and [getDay] reads it in local time, [offset] minutes east of UTC.
    Other strings are left unclassified here. *)

Module Calendar.

Local Open Scope Z_scope.

Definition digit (c : ascii) : option Z :=
  let n := Z.of_nat (nat_of_ascii c) in
  if (48 <=? n) && (n <=? 57) then Some (n - 48) else None.

Fixpoint number (acc : Z) (cs : list ascii) : option Z :=
  match cs with
  | [] => Some acc
  | c :: rest => d ← digit c; number (10 * acc + d) rest
  end.

Definition leap (y : Z) : bool :=
  (y mod 4 =? 0) && (negb (y mod 100 =? 0) || (y mod 400 =? 0)).

Definition days_in_month (y m : Z) : Z :=
  if m =? 2 then (if leap y then 29 else 28)
  else if (m =? 4) || (m =? 6) || (m =? 9) || (m =? 11) then 30 else 31.

(** Days from 1970-01-01 to the civil date [y]-[m]-[d]. *)
Definition days_from_civil (y m d : Z) : Z :=
  let y' := if m <=? 2 then y - 1 else y in
  let era := y' / 400 in
  let yoe := y' - era * 400 in
  let mp := (m + 9) mod 12 in
  let doy := (153 * mp + 2) / 5 + d - 1 in
  let doe := yoe * 365 + yoe / 4 - yoe / 100 + doy in
  era * 146097 + doe - 719468.

Definition parse (date : string) : option Z :=
  match list_ascii_of_string date with
  | [y1; y2; y3; y4; dash1; m1; m2; dash2; d1; d2] =>
      if Ascii.eqb dash1 "-" && Ascii.eqb dash2 "-" then
        y ← number 0 [y1; y2; y3; y4];
        m ← number 0 [m1; m2];
        d ← number 0 [d1; d2];
        if (1 <=? m) && (m <=? 12) && (1 <=? d) && (d <=? days_in_month y m)
        then Some (days_from_civil y m d) else None
      else None
  | _ => None
  end.

Definition getDay (offset : Z) (date : string) : option nat :=
  days ← parse date;
  Some (Z.to_nat (((days * 1440 + offset) / 1440 + 4) mod 7)).

(** The day of the week of the calendar date itself. *)
Definition weekday (date : string) : option nat :=
  days ← parse date;
  Some (Z.to_nat ((days + 4) mod 7)).

End Calendar.

(** ** What the handlers see of the disk *)

(** The store a request reads from a data file: a file that is missing or
    cannot be parsed reads as the empty object. *)
Definition stored (f : data_file) : Store :=
  match f with
  | Holds data => data
  | _ => ∅
  end.

(** [readData] can only throw while creating a missing file. *)
Definition readable (w : world) : bool :=
  match file w, faults w with
  | Missing, true :: _ => false
  | _, _ => true
  end.

Definition fresh : world := World Missing [] [] [].

(** The world that [readData] leaves when the file holds a store. *)
Definition after_read (w : world) : world :=
  logged ReadFileSync (logged ExistsSync w).

(** [writeData] succeeds unless the next write is scheduled to fail. *)
Definition write_ok (w : world) : bool :=
  match faults w with
  | true :: _ => false
  | _ => true
  end.

(** Every date of the store has at least one slot, and no slot twice. *)
Definition store_inv (data : Store) : Prop :=
  map_Forall (λ _ arr, arr ≠ [] ∧ NoDup arr) data.

#[global] Instance store_inv_dec data : Decision (store_inv data).
Proof. unfold store_inv. apply _. Defined.

(** The request and the worlds used in the concrete runs below. *)
Definition saturday_request : book_request :=
  BookRequest (Some "2024-06-08") (Some "09:00") None None.

Definition booked_world : world :=
  World (Holds {["2024-06-08" := ["09:00"]]}) [] [] [].

(** Worlds for the runs on a failing disk, on an unreadable file and on a
    store whose date has no dash. *)
Definition failing_disk (f : data_file) : world := World f [true] [] [].

Definition unreadable_world : world := World Unreadable [] [] [].

Definition plain_world : world :=
  World (Holds {["2024" := ["06:"; "07:"]]}) [] [] [].

(** A client whose name cannot be turned into a string:
    [{ "name": { "toString": 1 } }]. *)
Definition unprintable_client : json :=
  JObject [("name", JObject [("toString", JNumber "1")])].

Ltac run_io :=
  unfold mbind, mret, io_bind, io_ret, try_catch, throw, console_out in *;
  cbn [fst snd file faults fs_log console] in *.

(** ** Reading and writing the data file *)

Lemma readData_Holds w data :
  file w = Holds data →
  readData w = (Returned data, logged ReadFileSync (logged ExistsSync w)).
Proof.
  destruct w as [f fl lg con]. cbn. intros ->.
  unfold readData, Fs.existsSync, Fs.readJSON. run_io. reflexivity.
Qed.

Lemma readData_returned w data w1 :
  readData w = (Returned data, w1) →
  data = stored (file w) ∧ stored (file w1) = stored (file w) ∧
  (file w ≠ Missing → file w1 = file w ∧ faults w1 = faults w).
Proof.
  destruct w as [f fl lg con].
  unfold readData, Fs.existsSync, Fs.readJSON, Fs.writeFileSync. run_io.
  destruct f as [| |d]; cbn; [destruct fl as [|[] fl]; cbn|..];
    intros [= <- <-]; cbn; repeat split; congruence.
Qed.

Lemma readData_readable w :
  readable w = true → ∃ w1, readData w = (Returned (stored (file w)), w1).
Proof.
  destruct w as [f fl lg con].
  unfold readable, readData, Fs.existsSync, Fs.readJSON, Fs.writeFileSync. run_io.
  destruct f as [| |d]; cbn; [destruct fl as [|[] fl]; cbn|..];
    intros ?; try discriminate; eauto.
Qed.

Lemma writeData_cases data w :
  (∃ w', writeData data w = (Returned true, w') ∧ file w' = Holds data) ∨
  (∃ w', writeData data w = (Returned false, w') ∧ file w' = file w).
Proof.
  destruct w as [f fl lg con].
  unfold writeData, Fs.writeFileSync. run_io.
  destruct fl as [|[] fl]; cbn; eauto.
Qed.

Lemma readData_existing w :
  file w ≠ Missing →
  ∃ w1, readData w = (Returned (stored (file w)), w1) ∧
        file w1 = file w ∧ faults w1 = faults w ∧
        fs_log w1 = (fs_log w ++ [ExistsSync; ReadFileSync])%list.
Proof.
  destruct w as [f fl lg con]. cbn. intros Hf.
  unfold readData, Fs.existsSync, Fs.readJSON. run_io.
  destruct f as [| |d]; [done|..]; cbn; eexists;
    (split; [reflexivity|]); cbn; by rewrite <-app_assoc.
Qed.

Lemma readData_missing w :
  file w = Missing →
  (write_ok w = true →
     ∃ w1, readData w = (Returned ∅, w1) ∧ file w1 = Holds ∅) ∧
  (write_ok w = false →
     ∃ w1, readData w = (Thrown IOError, w1) ∧ file w1 = Missing) ∧
  fs_log (readData w).2 = (fs_log w ++ [ExistsSync; WriteFileSync ∅])%list.
Proof.
  destruct w as [f fl lg con]. cbn. intros ->.
  unfold write_ok, readData, Fs.existsSync, Fs.writeFileSync. run_io.
  destruct fl as [|[] fl]; cbn; split_and!; intros; try discriminate; eauto;
    by rewrite <-app_assoc.
Qed.

Lemma required_Some v s : required v = Some s ↔ v = Some s ∧ s ≠ "".
Proof.
  unfold required, Js.truthy. destruct v as [t|]; [|split; [done|by intros [? _]]].
  destruct (String.eqb_spec t "") as [-> | Hne]; cbn.
  - split; [done|]. intros [[= <-] Hs]. by destruct Hs.
  - split; [by intros [= ->]|]. by intros [[= ->] _].
Qed.

Lemma required_nonempty s : s ≠ "" → required (Some s) = Some s.
Proof. intros. by apply required_Some. Qed.

Lemma includes_true arr x : Js.includes arr x = true ↔ x ∈ arr.
Proof. unfold Js.includes. apply bool_decide_eq_true. Qed.

Lemma includes_false arr x : Js.includes arr x = false ↔ x ∉ arr.
Proof. unfold Js.includes. apply bool_decide_eq_false. Qed.

Lemma split_without_separator sep s : Js.occurs sep s = false → Js.split sep s = [s].
Proof.
  induction s as [|c s IH]; cbn; [done|].
  destruct (Ascii.eqb c sep); cbn; [done|].
  intros Hs. by rewrite IH.
Qed.

Lemma property_of_own data key arr :
  data !! key = Some arr → property_of data key = Own arr.
Proof. unfold property_of. by intros ->. Qed.

Lemma property_of_inherited data key :
  property_of data key = Inherited ↔ data !! key = None ∧ Js.inherited key = true.
Proof.
  unfold property_of. destruct (data !! key); [by split; [|intros [? _]]|].
  destruct (Js.inherited key); by split; [|intros [_ ?]].
Qed.

Lemma property_of_booked data key x :
  x ∈ default [] (data !! key) → property_of data key ≠ Inherited.
Proof.
  intros Hx [Hnone _]%property_of_inherited. rewrite Hnone in Hx.
  by apply not_elem_of_nil in Hx.
Qed.

(** [POST /book] once the two required fields are there and the store has
    been read, for a date whose lookup yields an array or nothing. *)
Lemma post_book_run date slot c v w data w1 :
  date ≠ "" → slot ≠ "" → readData w = (Returned data, w1) →
  property_of data date ≠ Inherited →
  post_book (BookRequest (Some date) (Some slot) c v) w =
    let booked := default [] (data !! date) in
    if Js.includes booked slot then
      (Returned (Response 409 (FailureBody "Ce créneau est déjà réservé")), w1)
    else
      match writeData (<[date := (booked ++ [slot])%list]> data) w1 with
      | (Returned true, w2) =>
          match Json.to_string (client_label c) with
          | Some par =>
              (Returned (Response 200 (BookedBody date slot)),
               printed ("Réservation: " +:+ date +:+ " à " +:+ slot +:+ " par " +:+ par) w2)
          | None => (Thrown TypeError, w2)
          end
      | (Returned false, w2) =>
          (Returned (Response 500 (FailureBody "Erreur lors de la sauvegarde")), w2)
      | (Thrown e, w2) => (Thrown e, w2)
      end.
Proof.
  intros Hd Hs Hread Hprop. unfold post_book. cbn [req_date req_slot req_client].
  rewrite !required_nonempty by done. run_io. rewrite Hread.
  destruct (data !! date) as [arr|] eqn:Hl.
  - rewrite (property_of_own _ _ _ Hl). cbn.
    rewrite (property_of_own _ _ _ Hl), Hl. cbn. run_io.
    destruct (Js.includes arr slot); [done|].
    destruct (writeData _ w1) as [[[]|e] w2]; [|reflexivity..].
    unfold interpolate. destruct (Json.to_string (client_label c)); reflexivity.
  - assert (property_of data date = Undefined) as ->.
    { unfold property_of in *. rewrite Hl in *. by destruct (Js.inherited date). }
    rewrite (property_of_own _ date []) by apply lookup_insert_eq.
    cbn. rewrite lookup_insert_eq, insert_insert_eq. cbn. run_io.
    assert (Js.includes [] slot = false) as ->
      by apply includes_false, not_elem_of_nil.
    destruct (writeData _ w1) as [[[]|e] w2]; [|reflexivity..].
    unfold interpolate. destruct (Json.to_string (client_label c)); reflexivity.
Qed.

(** [POST /book] for a date that names an inherited property and is not a
    date of the store: [data[date]] is truthy and is not an array. *)
Lemma post_book_inherited date slot c v w data w1 :
  date ≠ "" → slot ≠ "" → readData w = (Returned data, w1) →
  property_of data date = Inherited →
  post_book (BookRequest (Some date) (Some slot) c v) w = (Thrown TypeError, w1).
Proof.
  intros Hd Hs Hread Hprop. unfold post_book. cbn [req_date req_slot req_client].
  rewrite !required_nonempty by done. run_io. rewrite Hread, Hprop. cbn.
  by rewrite Hprop.
Qed.

Lemma post_book_missing_field req w :
  required (req_date req) = None ∨ required (req_slot req) = None →
  post_book req w =
    (Returned (Response 400 (FailureBody "Date et créneau obligatoires")), w).
Proof.
  unfold post_book. intros [-> | ->]; [done|].
  by destruct (required (req_date req)).
Qed.

Lemma readData_thrown w e w1 :
  readData w = (Thrown e, w1) → file w1 = file w.
Proof.
  destruct w as [f fl lg con].
  unfold readData, Fs.existsSync, Fs.readJSON, Fs.writeFileSync. run_io.
  destruct f as [| |d]; cbn; [destruct fl as [|[] fl]; cbn|..];
    intros [= <- <-]; reflexivity.
Qed.

(** [DELETE /booking/:id] once the id has been decoded and the store read,
    for a date whose lookup yields an array or nothing. *)
Lemma delete_booking_run id date slot w data w1 :
  decode_id id = Some (date, slot) → readData w = (Returned data, w1) →
  property_of data date ≠ Inherited →
  delete_booking id w =
    let arr := default [] (data !! date) in
    if Js.includes arr slot then
      let remaining := filter (λ s, s ≠ slot) arr in
      match writeData (if Nat.eqb (length remaining) 0 then delete date data
                       else <[date := remaining]> data) w1 with
      | (Returned true, w2) =>
          (Returned (Response 200 (DeletedBody "Réservation supprimée avec succès")),
           printed ("Réservation supprimée: " +:+ date +:+ " à " +:+ slot) w2)
      | (Returned false, w2) =>
          (Returned (Response 500 (FailureBody "Erreur lors de la suppression")), w2)
      | (Thrown e, w2) => (Thrown e, w2)
      end
    else
      (Returned (Response 404 (FailureBody "Réservation introuvable")), w1).
Proof.
  intros Hid Hread Hprop. unfold delete_booking. rewrite Hid. run_io. rewrite Hread.
  destruct (data !! date) as [arr|] eqn:Hl.
  - rewrite (property_of_own _ _ _ Hl). cbn. run_io.
    destruct (Js.includes arr slot); cbn; [|done].
    rewrite delete_insert_eq.
    destruct (writeData _ w1) as [[[]|e] w2]; reflexivity.
  - assert (property_of data date = Undefined) as ->.
    { unfold property_of in *. rewrite Hl in *. by destruct (Js.inherited date). }
    cbn. by assert (Js.includes [] slot = false) as ->
      by apply includes_false, not_elem_of_nil.
Qed.

(** [DELETE /booking/:id] for a decoded date that names an inherited
    property and is not a date of the store. *)
Lemma delete_booking_inherited id date slot w data w1 :
  decode_id id = Some (date, slot) → readData w = (Returned data, w1) →
  property_of data date = Inherited →
  delete_booking id w = (Thrown TypeError, w1).
Proof.
  intros Hid Hread Hprop. unfold delete_booking. rewrite Hid. run_io.
  by rewrite Hread, Hprop.
Qed.

Lemma delete_booking_undecodable id w :
  decode_id id = None → delete_booking id w = (Thrown TypeError, w).
Proof. intros Hid. unfold delete_booking. by rewrite Hid. Qed.

(** ** The store invariant *)

Lemma store_inv_booked data date :
  store_inv data → NoDup (default [] (data !! date)).
Proof.
  intros Hinv. destruct (data !! date) as [arr|] eqn:Hl; cbn.
  - by apply (Hinv date arr).
  - constructor.
Qed.

Lemma store_inv_book data date slot :
  store_inv data → slot ∉ default [] (data !! date) →
  store_inv (<[date := (default [] (data !! date) ++ [slot])%list]> data).
Proof.
  intros Hinv Hnew. apply map_Forall_insert_2; [|done]. split.
  - by destruct (default [] (data !! date)).
  - apply NoDup_app. split_and!.
    + by apply store_inv_booked.
    + intros x Hx ->%list_elem_of_singleton. done.
    + apply NoDup_singleton.
Qed.

Lemma store_inv_cancel data date slot :
  store_inv data →
  let remaining := filter (λ s, s ≠ slot) (default [] (data !! date)) in
  store_inv (if Nat.eqb (length remaining) 0 then delete date data
             else <[date := remaining]> data).
Proof.
  intros Hinv remaining. destruct (Nat.eqb_spec (length remaining) 0) as [|Hlen].
  - by apply map_Forall_delete.
  - apply map_Forall_insert_2; [|done]. split.
    + intros Hnil. by rewrite Hnil in Hlen.
    + by apply NoDup_filter, store_inv_booked.
Qed.

Lemma post_book_read_thrown date slot c v w e w1 :
  date ≠ "" → slot ≠ "" → readData w = (Thrown e, w1) →
  post_book (BookRequest (Some date) (Some slot) c v) w = (Thrown e, w1).
Proof.
  intros Hd Hs Hread. unfold post_book. cbn [req_date req_slot req_client].
  rewrite !required_nonempty by done. run_io. by rewrite Hread.
Qed.

Lemma delete_booking_read_thrown id date slot w e w1 :
  decode_id id = Some (date, slot) → readData w = (Thrown e, w1) →
  delete_booking id w = (Thrown e, w1).
Proof.
  intros Hid Hread. unfold delete_booking. rewrite Hid. run_io. by rewrite Hread.
Qed.

Lemma post_book_preserves_inv req w :
  store_inv (stored (file w)) → store_inv (stored (file (post_book req w).2)).
Proof.
  intros Hinv.
  destruct (required (req_date req)) as [date|] eqn:Hd;
    [destruct (required (req_slot req)) as [slot|] eqn:Hs|];
    [|rewrite post_book_missing_field by auto; done..].
  destruct req as [d s c v]. cbn in Hd, Hs.
  apply required_Some in Hd as [-> Hd]. apply required_Some in Hs as [-> Hs].
  destruct (readData w) as [[data|e] w1] eqn:Hread.
  - destruct (readData_returned _ _ _ Hread) as (-> & Hst & _).
    destruct (decide (property_of (stored (file w)) date = Inherited)) as [Hp | Hp];
      [rewrite (post_book_inherited _ _ _ _ _ _ _ Hd Hs Hread Hp); cbn;
       by rewrite Hst|].
    rewrite (post_book_run _ _ _ _ _ _ _ Hd Hs Hread Hp). cbn zeta.
    destruct (Js.includes _ slot) eqn:Hinc; cbn; [by rewrite Hst|].
    apply includes_false in Hinc.
    destruct (writeData_cases
      (<[date := (default [] (stored (file w) !! date) ++ [slot])%list]> (stored (file w))) w1)
      as [(w2 & -> & Hf) | (w2 & -> & Hf)].
    + destruct (Json.to_string _); cbn; rewrite Hf; cbn; by apply store_inv_book.
    + cbn. by rewrite Hf, Hst.
  - rewrite (post_book_read_thrown _ _ _ _ _ _ _ Hd Hs Hread). cbn.
    by rewrite (readData_thrown _ _ _ Hread).
Qed.

Lemma delete_booking_preserves_inv id w :
  store_inv (stored (file w)) → store_inv (stored (file (delete_booking id w).2)).
Proof.
  intros Hinv. destruct (decode_id id) as [[date slot]|] eqn:Hid;
    [|by rewrite delete_booking_undecodable].
  destruct (readData w) as [[data|e] w1] eqn:Hread.
  - destruct (readData_returned _ _ _ Hread) as (-> & Hst & _).
    destruct (decide (property_of (stored (file w)) date = Inherited)) as [Hp | Hp];
      [rewrite (delete_booking_inherited _ _ _ _ _ _ Hid Hread Hp); cbn;
       by rewrite Hst|].
    rewrite (delete_booking_run _ _ _ _ _ _ Hid Hread Hp). cbn zeta.
    destruct (Js.includes _ slot); cbn; [|by rewrite Hst].
    match goal with |- context [writeData ?d w1] =>
      destruct (writeData_cases d w1) as [(w2 & -> & Hf) | (w2 & -> & Hf)]
    end; cbn; rewrite Hf; cbn.
    + by apply store_inv_cancel.
    + by rewrite Hst.
  - rewrite (delete_booking_read_thrown _ _ _ _ _ _ Hid Hread). cbn.
    by rewrite (readData_thrown _ _ _ Hread).
Qed.

(** ** Properties of the operations *)

(** C4: Book and Cancel preserve the store invariant: every date present in
    the store has a non-empty list of slots, and no list holds a slot twice.
    This holds for every request and every id, whatever the response. *)
Theorem operations_preserve_store_invariant
    (w : world) (req : book_request) (bookingId : string) :
  store_inv (stored (file w)) →
  store_inv (stored (file (post_book req w).2)) ∧
  store_inv (stored (file (delete_booking bookingId w).2)).
Proof.
  intros Hinv. split.
  - by apply post_book_preserves_inv.
  - by apply delete_booking_preserves_inv.
Qed.

(** C2: when Book(d, s) succeeds for non-empty d and s, booking the same
    pair again (with any client and vehicle) answers 409 Conflict, leaves the
    data file as it is and writes nothing: the only file calls are those of
    the read. *)
Theorem second_book_conflicts
    (w w1 : world) (date slot : string)
    (c c' : option json) (v v' : option json) :
  date ≠ "" → slot ≠ "" →
  post_book (BookRequest (Some date) (Some slot) c v) w =
    (Returned (Response 200 (BookedBody date slot)), w1) →
  ∃ w2,
    post_book (BookRequest (Some date) (Some slot) c' v') w1 =
      (Returned (Response 409 (FailureBody "Ce créneau est déjà réservé")), w2) ∧
    file w2 = file w1 ∧
    fs_log w2 = (fs_log w1 ++ [ExistsSync; ReadFileSync])%list.
Proof.
  intros Hd Hs Hbook.
  destruct (readData w) as [[data|e] w0] eqn:Hread;
    [|by rewrite (post_book_read_thrown _ _ _ _ _ _ _ Hd Hs Hread) in Hbook].
  destruct (decide (property_of data date = Inherited)) as [Hp | Hp];
    [by rewrite (post_book_inherited _ _ _ _ _ _ _ Hd Hs Hread Hp) in Hbook|].
  rewrite (post_book_run _ _ _ _ _ _ _ Hd Hs Hread Hp) in Hbook. cbn zeta in Hbook.
  destruct (Js.includes _ slot); [discriminate|].
  match type of Hbook with context [writeData ?d w0] =>
    destruct (writeData_cases d w0) as [(w' & Hw & Hf) | (w' & Hw & Hf)];
    rewrite Hw in Hbook; [|discriminate]
  end.
  destruct (Json.to_string (client_label c)); [|discriminate].
  injection Hbook as Hw1.
  assert (file w1 = Holds (<[date := (default [] (data !! date) ++ [slot])%list]> data))
    as Hf1 by (by rewrite <-Hw1).
  eexists.
  rewrite (post_book_run _ _ c' v' _ _ _ Hd Hs (readData_Holds _ _ Hf1))
    by (by rewrite (property_of_own _ _ _ (lookup_insert_eq _ _ _))).
  cbn zeta. rewrite lookup_insert_eq.
  change (default [] (Some ?arr)) with arr.
  assert (Js.includes (default [] (data !! date) ++ [slot]) slot = true) as ->
    by (apply includes_true, elem_of_app; right; by apply list_elem_of_singleton).
  split_and!; [reflexivity|reflexivity|].
  cbn. by rewrite <-app_assoc.
Qed.

(** The classification depends on the server's zone: the string of
    Saturday 8 June 2024 is day 6 at or east of UTC and day 5 (Friday) five
    hours west of it. *)
Example getDay_depends_on_zone :
  Calendar.getDay 0 "2024-06-08" = Some 6 ∧
  Calendar.getDay 120 "2024-06-08" = Some 6 ∧
  Calendar.getDay (-300) "2024-06-08" = Some 5.
Proof. vm_compute. repeat split. Qed.

Lemma filter_io_array arr l w :
  filter_io (λ slot, call_includes (Own arr) slot ≫= λ found : bool,
                     mret (negb found)) l w =
    (Returned (filter (λ slot, slot ∉ arr) l), w).
Proof.
  induction l as [|x l IH]; [done|]. cbn [filter_io]. run_io. cbn in *. rewrite IH.
  destruct (Js.includes arr x) eqn:Hx;
    [apply includes_true in Hx|apply includes_false in Hx];
    by destruct (decide (x ∉ arr)).
Qed.

Lemma slots_for_cons getDay date : ∃ slot rest, slots_for getDay date = slot :: rest.
Proof. unfold slots_for. destruct (bool_decide _); by eauto. Qed.

(** [GET /slots] once the store has been read, for a date whose lookup
    yields an array or nothing. *)
Lemma get_slots_run getDay date w data w1 :
  date ≠ "" → readData w = (Returned data, w1) →
  property_of data date ≠ Inherited →
  get_slots getDay (Some date) w =
    (Returned (Response 200
       (SlotsBody date
          (filter (λ slot, slot ∉ default [] (data !! date)) (slots_for getDay date))
          (default [] (data !! date)))), w1).
Proof.
  intros Hd Hread Hprop. unfold get_slots. rewrite required_nonempty by done.
  run_io. rewrite Hread.
  assert (match property_of data date with Undefined => Own [] | value => value end
          = Own (default [] (data !! date))) as ->.
  { unfold property_of in *. destruct (data !! date); [done|].
    by destruct (Js.inherited date). }
  pose proof (filter_io_array (default [] (data !! date)) (slots_for getDay date) w1)
    as Hfilter.
  run_io. by rewrite Hfilter.
Qed.

(** [GET /slots] for a date that names an inherited property and is not a
    date of the store: the first call of the filter callback throws. *)
Lemma get_slots_inherited getDay date w data w1 :
  date ≠ "" → readData w = (Returned data, w1) →
  property_of data date = Inherited →
  get_slots getDay (Some date) w = (Thrown TypeError, w1).
Proof.
  intros Hd Hread Hprop. unfold get_slots. rewrite required_nonempty by done.
  run_io. rewrite Hread, Hprop.
  by destruct (slots_for_cons getDay date) as (slot & rest & ->).
Qed.

(** [GET /slots] answers whenever the store can be read, that is unless the
    data file is missing and cannot be created, and the date does not fall
    on an inherited property. *)
Lemma get_slots_returns getDay date w :
  date ≠ "" → readable w = true →
  property_of (stored (file w)) date ≠ Inherited →
  ∃ available w1,
    get_slots getDay (Some date) w =
      (Returned (Response 200
         (SlotsBody date available (default [] (stored (file w) !! date)))), w1).
Proof.
  intros Hd [w1 Hread]%readData_readable Hprop.
  do 2 eexists. by rewrite (get_slots_run _ _ _ _ _ Hd Hread Hprop).
Qed.

(** The template of a request is the one [getDay] selects. *)
Lemma slots_follow_getDay getDay w w1 data date :
  date ≠ "" → readData w = (Returned data, w1) →
  property_of data date ≠ Inherited →
  ∃ available booked,
    get_slots getDay (Some date) w =
      (Returned (Response 200 (SlotsBody date available booked)), w1) ∧
    (getDay date = Some 6 →
       available = filter (λ slot, slot ∉ booked) SATURDAY_SLOTS ∧
       available ⊆ SATURDAY_SLOTS) ∧
    (getDay date ≠ Some 6 →
       available = filter (λ slot, slot ∉ booked) DEFAULT_SLOTS ∧
       available ⊆ DEFAULT_SLOTS).
Proof.
  intros Hd Hread Hprop. do 2 eexists. split; [by apply get_slots_run|].
  unfold slots_for. split; intros Hday.
  - rewrite bool_decide_eq_true_2 by done.
    split; [done|]. intros s Hs. by apply list_elem_of_filter in Hs as [_ ?].
  - rewrite bool_decide_eq_false_2 by done.
    split; [done|]. intros s Hs. by apply list_elem_of_filter in Hs as [_ ?].
Qed.

(** C5: 8 June 2024 is a Saturday and 9 June a Sunday.  On a server whose
    local time is five hours west of UTC, [getDay] reads the first as day 5
    and the second as day 6: GetAvailability answers the Saturday from the
    8-slot default template (08:00 and the afternoon slots are offered) and
    the Sunday from the 4-slot Saturday template. *)
Theorem saturday_west_of_utc_gets_default_template :
  Calendar.weekday "2024-06-08" = Some 6 ∧
  Calendar.getDay (-300) "2024-06-08" = Some 5 ∧
  get_slots (Calendar.getDay (-300)) (Some "2024-06-08") booked_world =
    (Returned (Response 200
       (SlotsBody "2024-06-08"
          ["08:00"; "10:00"; "11:00"; "14:00"; "15:00"; "16:00"; "17:00"]
          ["09:00"])),
     after_read booked_world) ∧
  Calendar.weekday "2024-06-09" = Some 0 ∧
  Calendar.getDay (-300) "2024-06-09" = Some 6 ∧
  get_slots (Calendar.getDay (-300)) (Some "2024-06-09") booked_world =
    (Returned (Response 200
       (SlotsBody "2024-06-09" ["09:00"; "10:00"; "11:00"; "12:00"] [])),
     after_read booked_world).
Proof. vm_compute. repeat split. Qed.

(** C6: [constructor] is a non-empty date that the store does not have, yet
    GetAvailability does not answer with an empty [booked] and the template:
    [data[date]] finds the property that every object inherits, and the
    call of [includes] on it throws a TypeError, whatever the day. *)
Theorem availability_throws_for_inherited_date (getDay : string → option nat) :
  stored (file booked_world) !! "constructor" = None ∧
  get_slots getDay (Some "constructor") booked_world =
    (Thrown TypeError, after_read booked_world).
Proof.
  split; [reflexivity|].
  apply (get_slots_inherited getDay "constructor" booked_world
           {["2024-06-08" := ["09:00"]]}); [discriminate|reflexivity..].
Qed.

(** C7, as stated, fails on two runs: the id [constructor-09-00] decodes
    to a date that the store does not have and Cancel throws a TypeError
    instead of answering NotFound; and on a missing data file the Cancel of
    an unknown pair answers 404 after the read has created the file with the
    empty object, so something has been persisted. *)
Lemma cancel_unknown_not_always_not_found :
  (decode_id "constructor-09-00" = Some ("constructor", "09:") ∧
   stored (file booked_world) !! "constructor" = None ∧
   delete_booking "constructor-09-00" booked_world =
     (Thrown TypeError, after_read booked_world)) ∧
  (decode_id "2024-06-08-09-00" = Some ("2024", "06:") ∧
   stored (file fresh) !! "2024" = None ∧
   (delete_booking "2024-06-08-09-00" fresh).1 =
     Returned (Response 404 (FailureBody "Réservation introuvable")) ∧
   file fresh = Missing ∧
   file (delete_booking "2024-06-08-09-00" fresh).2 = Holds ∅ ∧
   fs_log (delete_booking "2024-06-08-09-00" fresh).2 =
     [ExistsSync; WriteFileSync ∅]).
Proof. vm_compute. repeat split. Qed.

(** C7 (amended): when the id decodes to a date that the store does not
    have and that names no inherited property, or to a slot that is not
    booked on its date, Cancel answers 404 NotFound and ends in the world
    that the read leaves: the store read is the same, [writeData] is not
    called, an existing data file is untouched, and a missing one has been
    created with the empty object by the read. *)
Theorem cancel_unknown_not_found
    (w w1 : world) (data : Store) (bookingId date slot : string) :
  decode_id bookingId = Some (date, slot) →
  readData w = (Returned data, w1) →
  (data !! date = None ∧ Js.inherited date = false) ∨
    (∃ arr, data !! date = Some arr ∧ slot ∉ arr) →
  delete_booking bookingId w =
    (Returned (Response 404 (FailureBody "Réservation introuvable")), w1) ∧
  data = stored (file w) ∧
  stored (file w1) = stored (file w) ∧
  (file w ≠ Missing →
     file w1 = file w ∧
     fs_log w1 = (fs_log w ++ [ExistsSync; ReadFileSync])%list) ∧
  (file w = Missing →
     file w1 = Holds ∅ ∧
     fs_log w1 = (fs_log w ++ [ExistsSync; WriteFileSync ∅])%list).
Proof.
  intros Hid Hread Habsent.
  assert (property_of data date ≠ Inherited) as Hprop.
  { intros [Hnone Hinh]%property_of_inherited.
    destruct Habsent as [[_ ?] | (arr & ? & _)]; congruence. }
  rewrite (delete_booking_run _ _ _ _ _ _ Hid Hread Hprop). cbn zeta.
  assert (Js.includes (default [] (data !! date)) slot = false) as ->.
  { apply includes_false. destruct Habsent as [[-> _] | (arr & -> & ?)]; [|done].
    apply not_elem_of_nil. }
  destruct (readData_returned _ _ _ Hread) as (? & ? & _).
  split_and!; [done..| |].
  - intros Hf. destruct (readData_existing w Hf) as (w' & Hr & ? & _ & ?).
    rewrite Hr in Hread. by injection Hread as _ <-.
  - intros Hf. destruct (readData_missing w Hf) as (Hgood & Hbad & Hlog).
    rewrite Hread in Hlog. split; [|done].
    destruct (write_ok w).
    + destruct (Hgood eq_refl) as (w' & Hr & ?). rewrite Hr in Hread.
      by injection Hread as _ <-.
    + destruct (Hbad eq_refl) as (w' & Hr & _). by rewrite Hr in Hread.
Qed.

(** C8: GetAvailability without a date (the parameter is absent or empty)
    answers 400 InvalidInput and leaves the world as it was: no call on the
    data file is made, nothing is read and nothing is written. *)
Theorem slots_without_date (getDay : string → option nat) (w : world) :
  get_slots getDay None w =
    (Returned (Response 400 (ErrorBody "Date requise sous format YYYY-MM-DD")), w) ∧
  get_slots getDay (Some "") w =
    (Returned (Response 400 (ErrorBody "Date requise sous format YYYY-MM-DD")), w).
Proof. split; reflexivity. Qed.

(** C9: an id without any dash has no second segment, so the decoding step
    of Cancel throws a TypeError instead of answering NotFound; the store is
    not even read. *)
Theorem cancel_id_without_dash_throws (bookingId : string) (w : world) :
  Js.occurs "-" bookingId = false →
  decode_id bookingId = None ∧
  delete_booking bookingId w = (Thrown TypeError, w).
Proof.
  intros Hdash.
  assert (decode_id bookingId = None) as Hid
    by (unfold decode_id; by rewrite split_without_separator).
  split; [done|]. by apply delete_booking_undecodable.
Qed.

(** C10: the same Book on a new data file answers 200 without a client
    and ends in a TypeError with the client [{ name: { toString: 1 } }]: the
    console line is built after the write, and the name cannot be turned
    into a string.  Both runs leave the same file, holding the booking. *)
Theorem book_outcome_depends_on_client :
  let with_client :=
    BookRequest (Some "2024-06-08") (Some "09:00") (Some unprintable_client) None in
  (post_book saturday_request fresh).1 =
    Returned (Response 200 (BookedBody "2024-06-08" "09:00")) ∧
  (post_book with_client fresh).1 = Thrown TypeError ∧
  file (post_book with_client fresh).2 = Holds {["2024-06-08" := ["09:00"]]} ∧
  file (post_book saturday_request fresh).2 = Holds {["2024-06-08" := ["09:00"]]}.
Proof. vm_compute. repeat split. Qed.

(** ** The identifier does not decode back *)

(** C1: the id that ListBookings gives the booking of 2024-06-08 at 09:00 is
    [2024-06-08-09-00]; the decoding step of Cancel splits it at every dash,
    keeps the first two segments and reads it as date [2024], slot [06:]. *)
Theorem booking_id_decodes_to_another_pair :
  booking_id "2024-06-08" "09:00" = "2024-06-08-09-00" ∧
  decode_id (booking_id "2024-06-08" "09:00") = Some ("2024", "06:").
Proof. split; reflexivity. Qed.

(** C3: on a new data file, Book("2024-06-08", "09:00") succeeds; Cancel on
    the id of that booking answers 404; GetAvailability for the date then
    still reports 09:00 as booked and not as available, and ListBookings
    still lists the booking. *)
Theorem cancel_of_booked_slot_not_found :
  let '(booked, w1) := post_book saturday_request fresh in
  let '(cancelled, w2) := delete_booking (booking_id "2024-06-08" "09:00") w1 in
  let '(slots, w3) := get_slots (Calendar.getDay 0) (Some "2024-06-08") w2 in
  let '(listed, _) := get_bookings w3 in
  booked = Returned (Response 200 (BookedBody "2024-06-08" "09:00")) ∧
  cancelled = Returned (Response 404 (FailureBody "Réservation introuvable")) ∧
  slots = Returned (Response 200
    (SlotsBody "2024-06-08" ["10:00"; "11:00"; "12:00"] ["09:00"])) ∧
  listed = Returned (Response 200
    (BookingsBody 1 [Booking "2024-06-08" "09:00" "2024-06-08-09-00"])).
Proof. vm_compute. repeat split. Qed.

(** ** What Cancel and ListBookings do when the id does decode

    The remaining paths of the two handlers, for the ids that the decoding
    step reads as a booked pair. *)

Lemma writeData_ok data w :
  write_ok w = true →
  ∃ w', writeData data w = (Returned true, w') ∧ file w' = Holds data.
Proof.
  destruct w as [f fl lg con]. unfold write_ok, writeData, Fs.writeFileSync. run_io.
  destruct fl as [|[] fl]; cbn; intros ?; try discriminate; eauto.
Qed.

(** Cancel of a booked pair removes the slot, keeps the other slots of the
    date, and drops the date when no slot is left. *)
Lemma delete_booking_removes id date slot w data :
  decode_id id = Some (date, slot) →
  file w = Holds data → slot ∈ default [] (data !! date) →
  write_ok w = true →
  ∃ w',
    delete_booking id w =
      (Returned (Response 200 (DeletedBody "Réservation supprimée avec succès")), w') ∧
    (slot ∉ default [] (stored (file w') !! date)) ∧
    (∀ s, s ≠ slot →
       s ∈ default [] (stored (file w') !! date) ↔ s ∈ default [] (data !! date)) ∧
    (default [] (data !! date) = [slot] → stored (file w') !! date = None).
Proof.
  intros Hid Hf Hslot Hok.
  rewrite (delete_booking_run _ _ _ _ _ _ Hid (readData_Holds _ _ Hf))
    by (by eapply property_of_booked). cbn zeta.
  assert (Js.includes (default [] (data !! date)) slot = true) as ->
    by by apply includes_true.
  set (remaining := filter (λ s, s ≠ slot) (default [] (data !! date))).
  set (data' := if Nat.eqb (length remaining) 0 then delete date data
                else <[date := remaining]> data).
  match goal with |- context [writeData data' ?w0] =>
    destruct (writeData_ok data' w0) as (w2 & -> & Hf2); [done|]
  end.
  eexists. split; [done|]. cbn. rewrite Hf2. cbn.
  assert (default [] (data' !! date) = remaining) as ->.
  { unfold data'. destruct (Nat.eqb_spec (length remaining) 0) as [Hlen | _].
    - rewrite lookup_delete_eq. by apply nil_length_inv in Hlen as ->.
    - by rewrite lookup_insert_eq. }
  split_and!.
  - intros [Hne _]%list_elem_of_filter. done.
  - intros s Hs. unfold remaining. rewrite list_elem_of_filter. tauto.
  - intros Honly. unfold data', remaining. rewrite Honly, filter_cons_False by tauto.
    cbn. apply lookup_delete_eq.
Qed.

(** ListBookings lists exactly the pairs of the store, each with its id. *)
Lemma get_bookings_lists w data w1 :
  readData w = (Returned data, w1) →
  ∃ bookings,
    get_bookings w =
      (Returned (Response 200 (BookingsBody (length bookings) bookings)), w1) ∧
    ∀ b, b ∈ bookings ↔
      b_slot b ∈ default [] (data !! b_date b) ∧
      b_id b = booking_id (b_date b) (b_slot b).
Proof.
  intros Hread. unfold get_bookings. run_io. rewrite Hread.
  eexists. split; [done|]. intros [d s i]. cbn.
  rewrite list_elem_of_In, in_flat_map. split.
  - intros ([d' arr] & Hm%list_elem_of_In%elem_of_map_to_list & Hb).
    apply in_map_iff in Hb as (s' & [= -> -> <-] & Hs%list_elem_of_In).
    by rewrite Hm.
  - intros [Hs ->]. destruct (data !! d) as [arr|] eqn:Hm;
      [|by apply not_elem_of_nil in Hs].
    exists (d, arr). split; [by apply list_elem_of_In, elem_of_map_to_list|].
    apply in_map_iff. exists s. split; [done|]. by apply list_elem_of_In.
Qed.

(** ** The defect is systematic

    The two theorems above are not accidents of one date: for every date and
    every slot of the two templates the id decodes to some other pair, and a
    Cancel on it leaves the slot booked. *)

Lemma split_at_first_separator sep a b :
  Js.occurs sep a = false →
  Js.split sep (a +:+ String sep b) = a :: Js.split sep b.
Proof.
  induction a as [|c a IH].
  - intros _. change ("" +:+ ?x) with x. cbn. by rewrite Ascii.eqb_refl.
  - change (String c a +:+ ?x) with (String c (a +:+ x)). cbn.
    destruct (Ascii.eqb c sep); cbn; [done|].
    intros Ha. by rewrite IH.
Qed.

Lemma split_head_shorter sep a b :
  Js.occurs sep a = true →
  ∃ seg rest, Js.split sep (a +:+ b) = seg :: rest ∧
              String.length seg < String.length a.
Proof.
  induction a as [|c a IH]; [done|].
  change (String c a +:+ ?x) with (String c (a +:+ x)). cbn.
  destruct (Ascii.eqb c sep); cbn.
  - intros _. do 2 eexists. split; [done|]. cbn. lia.
  - intros Ha. destruct (IH Ha) as (seg & rest & -> & Hlen).
    do 2 eexists. split; [done|]. cbn. lia.
Qed.

Lemma template_slot_id_never_decodes_back date slot :
  slot ∈ DEFAULT_SLOTS ∨ slot ∈ SATURDAY_SLOTS →
  decode_id (booking_id date slot) ≠ Some (date, slot).
Proof.
  intros Hslot. unfold decode_id, booking_id.
  destruct (Js.occurs "-" date) eqn:Hdash.
  - destruct (split_head_shorter "-" date ("-" +:+ Js.replace ":" "-" slot) Hdash)
      as (seg & rest & -> & Hlen).
    destruct rest; [done|]. intros [= -> _]. lia.
  - change ("-" +:+ ?x) with (String "-" x).
    rewrite split_at_first_separator by done.
    unfold DEFAULT_SLOTS, SATURDAY_SLOTS in Hslot.
    destruct Hslot as [Hslot | Hslot];
      repeat (apply elem_of_cons in Hslot as [-> | Hslot]; [vm_compute; intros [=]|]);
      by apply not_elem_of_nil in Hslot.
Qed.

Lemma post_book_success date slot c v w b w1 :
  post_book (BookRequest (Some date) (Some slot) c v) w =
    (Returned (Response 200 b), w1) →
  ∃ data, file w1 = Holds data ∧ slot ∈ default [] (data !! date).
Proof.
  intros Hbook.
  destruct (decide (date = "")) as [-> | Hd];
    [by rewrite post_book_missing_field in Hbook by (left; reflexivity)|].
  destruct (decide (slot = "")) as [-> | Hs];
    [by rewrite post_book_missing_field in Hbook by (right; reflexivity)|].
  destruct (readData w) as [[data|e] w0] eqn:Hread;
    [|by rewrite (post_book_read_thrown _ _ _ _ _ _ _ Hd Hs Hread) in Hbook].
  destruct (decide (property_of data date = Inherited)) as [Hp | Hp];
    [by rewrite (post_book_inherited _ _ _ _ _ _ _ Hd Hs Hread Hp) in Hbook|].
  rewrite (post_book_run _ _ _ _ _ _ _ Hd Hs Hread Hp) in Hbook. cbn zeta in Hbook.
  destruct (Js.includes _ slot); [discriminate|].
  match type of Hbook with context [writeData ?d w0] =>
    destruct (writeData_cases d w0) as [(w' & Hw & Hf) | (w' & Hw & Hf)];
    rewrite Hw in Hbook; [|discriminate]
  end.
  destruct (Json.to_string (client_label c)); [|discriminate].
  injection Hbook as _ <-. eexists. split; [exact Hf|].
  rewrite lookup_insert_eq. apply elem_of_app. right. by apply list_elem_of_singleton.
Qed.

(** Cancel touches no pair but the one its id decodes to. *)
Lemma delete_booking_keeps_other id date slot w data r w' :
  file w = Holds data → slot ∈ default [] (data !! date) →
  decode_id id ≠ Some (date, slot) →
  delete_booking id w = (r, w') →
  slot ∈ default [] (stored (file w') !! date).
Proof.
  intros Hf Hslot Hid Hdel.
  destruct (decode_id id) as [[d s]|] eqn:Hdec;
    [|rewrite delete_booking_undecodable in Hdel by done;
      injection Hdel as _ <-; by rewrite Hf].
  destruct (decide (property_of data d = Inherited)) as [Hp | Hp];
    [rewrite (delete_booking_inherited _ _ _ _ _ _ Hdec (readData_Holds _ _ Hf) Hp)
       in Hdel; injection Hdel as _ <-; cbn; by rewrite Hf|].
  rewrite (delete_booking_run _ _ _ _ _ _ Hdec (readData_Holds _ _ Hf) Hp) in Hdel.
  cbn zeta in Hdel.
  destruct (Js.includes _ s) eqn:Hinc;
    [|injection Hdel as _ <-; cbn; by rewrite Hf].
  match type of Hdel with context [writeData ?st ?w0] =>
    destruct (writeData_cases st w0) as [(w2 & Hw & Hf2) | (w2 & Hw & Hf2)];
    rewrite Hw in Hdel; injection Hdel as _ <-; cbn; rewrite Hf2; cbn;
    [|by rewrite Hf]
  end.
  destruct (decide (d = date)) as [-> | Hne].
  - assert (slot ∈ filter (λ x, x ≠ s) (default [] (data !! date))) as Hrem.
    { apply list_elem_of_filter. split; [|done]. intros ->. by apply Hid. }
    destruct (Nat.eqb_spec (length (filter (λ x, x ≠ s) (default [] (data !! date)))) 0)
      as [Hlen | _].
    + apply nil_length_inv in Hlen. rewrite Hlen in Hrem.
      by apply not_elem_of_nil in Hrem.
    + by rewrite lookup_insert_eq.
  - destruct (Nat.eqb _ 0).
    + by rewrite lookup_delete_ne.
    + by rewrite lookup_insert_ne.
Qed.

(** Whatever the store, after a successful Book of a template slot the
    Cancel on its id leaves that slot booked. *)
Lemma cancel_keeps_template_slot_booked date slot c v w w1 r w2 :
  slot ∈ DEFAULT_SLOTS ∨ slot ∈ SATURDAY_SLOTS →
  post_book (BookRequest (Some date) (Some slot) c v) w =
    (Returned (Response 200 (BookedBody date slot)), w1) →
  delete_booking (booking_id date slot) w1 = (r, w2) →
  slot ∈ default [] (stored (file w2) !! date).
Proof.
  intros Hslot Hbook Hdel.
  destruct (post_book_success _ _ _ _ _ _ _ Hbook) as (data & Hf & Hin).
  eapply delete_booking_keeps_other; [exact Hf|exact Hin| |exact Hdel].
  by apply template_slot_id_never_decodes_back.
Qed.

(** ** Runs on concrete worlds *)

Lemma operations_preserve_store_invariant_witness :
  store_inv (stored (file booked_world)) ∧
  store_inv (stored (file (post_book
    (BookRequest (Some "2024-06-08") (Some "10:00") None None) booked_world).2)) ∧
  store_inv (stored (file (delete_booking "2024-06-08-09-00" booked_world).2)).
Proof.
  assert (store_inv (stored (file booked_world))) as Hinv
    by (apply (bool_decide_unpack _); vm_compute; exact I).
  split; [exact Hinv|].
  exact (operations_preserve_store_invariant booked_world _ _ Hinv).
Defined.

Lemma second_book_conflicts_witness :
  ∃ w2,
    post_book saturday_request (post_book saturday_request fresh).2 =
      (Returned (Response 409 (FailureBody "Ce créneau est déjà réservé")), w2) ∧
    file w2 = file (post_book saturday_request fresh).2 ∧
    fs_log w2 =
      (fs_log (post_book saturday_request fresh).2 ++ [ExistsSync; ReadFileSync])%list.
Proof.
  apply (second_book_conflicts fresh _ "2024-06-08" "09:00" None None None None).
  - discriminate.
  - discriminate.
  - vm_compute. reflexivity.
Defined.

Lemma cancel_unknown_not_found_witness :
  delete_booking "2024-06-09-09-00" booked_world =
    (Returned (Response 404 (FailureBody "Réservation introuvable")),
     after_read booked_world) ∧
  ({["2024-06-08" := ["09:00"]]} : Store) = stored (file booked_world) ∧
  stored (file (after_read booked_world)) = stored (file booked_world) ∧
  (file booked_world ≠ Missing →
     file (after_read booked_world) = file booked_world ∧
     fs_log (after_read booked_world) =
       (fs_log booked_world ++ [ExistsSync; ReadFileSync])%list) ∧
  (file booked_world = Missing →
     file (after_read booked_world) = Holds ∅ ∧
     fs_log (after_read booked_world) =
       (fs_log booked_world ++ [ExistsSync; WriteFileSync ∅])%list).
Proof.
  apply (cancel_unknown_not_found booked_world (after_read booked_world)
           {["2024-06-08" := ["09:00"]]} "2024-06-09-09-00" "2024" "06:").
  - vm_compute. reflexivity.
  - vm_compute. reflexivity.
  - left. split; vm_compute; reflexivity.
Defined.

Lemma cancel_id_without_dash_throws_witness :
  Js.occurs "-" "20240608" = false ∧
  decode_id "20240608" = None ∧
  delete_booking "20240608" fresh = (Thrown TypeError, fresh).
Proof.
  split; [reflexivity|].
  apply (cancel_id_without_dash_throws "20240608" fresh). reflexivity.
Defined.

(** * Further properties of the file helpers and the handlers *)

(** ** [readData] and [writeData] *)

(** X1: [writeData] never throws.  It makes exactly one write call; when it
    returns [true] the file holds the data and nothing is printed, when it
    returns [false] the file is as before and one error line is printed. *)
Theorem writeData_never_throws (data : Store) (w : world) :
  ∃ saved w',
    writeData data w = (Returned saved, w') ∧
    fs_log w' = (fs_log w ++ [WriteFileSync data])%list ∧
    (if saved then file w' = Holds data ∧ console w' = console w
     else file w' = file w ∧
          console w' = (console w ++ ["Erreur lors de l'écriture des données:"])%list).
Proof.
  destruct w as [f fl lg con]. unfold writeData, Fs.writeFileSync. run_io.
  destruct fl as [|[] fl]; cbn; do 2 eexists; (split; [reflexivity|]); cbn; done.
Qed.

(** X2: what [writeData] reports as saved is what the next [readData]
    returns, and that read only reads: it leaves the file and the fault
    schedule alone. *)
Theorem write_then_read (data : Store) (w w' : world) :
  writeData data w = (Returned true, w') →
  readData w' = (Returned data, after_read w') ∧
  file (after_read w') = Holds data.
Proof.
  intros Hw. destruct (writeData_cases data w) as [(w2 & Hw2 & Hf) | (w2 & Hw2 & _)];
    rewrite Hw2 in Hw; [|discriminate].
  injection Hw as <-. split; [by apply readData_Holds|done].
Qed.

(** X3: when the data file exists [readData] never throws and never writes:
    it returns the store of the file, or the empty object when the file
    cannot be read or parsed, after one [existsSync] and one read. *)
Theorem readData_existing_file (w : world) :
  file w ≠ Missing →
  ∃ w1, readData w = (Returned (stored (file w)), w1) ∧
        file w1 = file w ∧ faults w1 = faults w ∧
        fs_log w1 = (fs_log w ++ [ExistsSync; ReadFileSync])%list.
Proof. apply readData_existing. Qed.

(** X4: when the data file is missing [readData] creates it with the empty
    object and returns the empty object; when that write fails the
    exception escapes and the file is still missing.  Either way the calls
    are one [existsSync] and one write of the empty object. *)
Theorem readData_missing_file (w : world) :
  file w = Missing →
  (write_ok w = true →
     ∃ w1, readData w = (Returned ∅, w1) ∧ file w1 = Holds ∅) ∧
  (write_ok w = false →
     ∃ w1, readData w = (Thrown IOError, w1) ∧ file w1 = Missing) ∧
  fs_log (readData w).2 = (fs_log w ++ [ExistsSync; WriteFileSync ∅])%list.
Proof. apply readData_missing. Qed.

(** ** [POST /book] *)

Lemma writeData_failed data w :
  write_ok w = false →
  ∃ w', writeData data w = (Returned false, w') ∧ file w' = file w.
Proof.
  destruct w as [f fl lg con]. unfold write_ok, writeData, Fs.writeFileSync. run_io.
  destruct fl as [|[] fl]; cbn; intros ?; try discriminate; eauto.
Qed.

(** The two ways a Book can end: the store is as before and the answer is
    no success, or the slot has been appended and written, and then the
    answer is a success unless the console line cannot be built. *)
Lemma post_book_outcomes req w :
  (stored (file (post_book req w).2) = stored (file w) ∧
   ∀ b, (post_book req w).1 ≠ Returned (Response 200 b)) ∨
  (∃ date slot,
     req_date req = Some date ∧ req_slot req = Some slot ∧
     (slot ∉ default [] (stored (file w) !! date)) ∧
     file (post_book req w).2 =
       Holds (<[date := (default [] (stored (file w) !! date) ++ [slot])%list]>
                (stored (file w))) ∧
     (post_book req w).1 =
       match Json.to_string (client_label (req_client req)) with
       | Some _ => Returned (Response 200 (BookedBody date slot))
       | None => Thrown TypeError
       end).
Proof.
  destruct (required (req_date req)) as [date|] eqn:Hd;
    [destruct (required (req_slot req)) as [slot|] eqn:Hs|];
    [|rewrite post_book_missing_field by auto; left; done..].
  destruct req as [d s c v]. cbn in Hd, Hs.
  apply required_Some in Hd as [-> Hd]. apply required_Some in Hs as [-> Hs].
  destruct (readData w) as [[data|e] w1] eqn:Hread.
  - destruct (readData_returned _ _ _ Hread) as (-> & Hst & _).
    destruct (decide (property_of (stored (file w)) date = Inherited)) as [Hp | Hp];
      [rewrite (post_book_inherited _ _ _ _ _ _ _ Hd Hs Hread Hp); cbn; left;
       by rewrite Hst|].
    rewrite (post_book_run _ _ _ _ _ _ _ Hd Hs Hread Hp). cbn zeta.
    destruct (Js.includes _ slot) eqn:Hinc; cbn; [left; by rewrite Hst|].
    apply includes_false in Hinc.
    match goal with |- context [writeData ?st w1] =>
      destruct (writeData_cases st w1) as [(w2 & -> & Hf) | (w2 & -> & Hf)]
    end.
    + right. exists date, slot. cbn [req_date req_slot req_client].
      by destruct (Json.to_string (client_label c)).
    + left. cbn. by rewrite Hf, Hst.
  - rewrite (post_book_read_thrown _ _ _ _ _ _ _ Hd Hs Hread). cbn.
    left. by rewrite (readData_thrown _ _ _ Hread).
Qed.

(** X5: a Book request whose date or slot is missing or empty is answered
    400 before the store is touched: no file call, no console line. *)
Theorem book_missing_field
    (w : world) (date slot : option string)
    (c : option json) (v : option json) :
  date = None ∨ date = Some "" ∨ slot = None ∨ slot = Some "" →
  post_book (BookRequest date slot c v) w =
    (Returned (Response 400 (FailureBody "Date et créneau obligatoires")), w).
Proof.
  intros Hmiss. apply post_book_missing_field. cbn.
  destruct Hmiss as [-> | [-> | [-> | ->]]]; auto.
Qed.

(** X6: a Book of a slot that the date does not have yet, on a working
    disk and for a date whose lookup does not fall on an inherited property,
    puts the slot at the end of the date's list, whether or not the slot
    belongs to a template, and leaves the lists of the other dates as they
    are.  It answers 200, unless the client's name cannot be turned into a
    string: the console line then throws a TypeError after the write. *)
Theorem book_appends
    (w w1 : world) (data : Store) (date slot : string)
    (c : option json) (v : option json) :
  date ≠ "" → slot ≠ "" →
  readData w = (Returned data, w1) →
  property_of data date ≠ Inherited →
  slot ∉ default [] (data !! date) →
  write_ok w1 = true →
  ∃ w2,
    post_book (BookRequest (Some date) (Some slot) c v) w =
      (match Json.to_string (client_label c) with
       | Some _ => Returned (Response 200 (BookedBody date slot))
       | None => Thrown TypeError
       end, w2) ∧
    stored (file w2) !! date = Some (default [] (data !! date) ++ [slot])%list ∧
    (∀ d, d ≠ date → stored (file w2) !! d = data !! d).
Proof.
  intros Hd Hs Hread Hprop Hnew Hok.
  rewrite (post_book_run _ _ _ _ _ _ _ Hd Hs Hread Hprop). cbn zeta.
  apply includes_false in Hnew. rewrite Hnew.
  match goal with |- context [writeData ?st w1] =>
    destruct (writeData_ok st w1 Hok) as (w2 & -> & Hf)
  end.
  destruct (Json.to_string (client_label c));
    (eexists; split; [reflexivity|]; cbn; rewrite Hf; cbn; split;
     [apply lookup_insert_eq|intros d Hne; by apply lookup_insert_ne]).
Qed.

(** X7: a Book of a slot that the date already has answers 409 and does
    nothing beyond reading the store: no write call is made. *)
Theorem book_conflict
    (w w1 : world) (data : Store) (date slot : string)
    (c : option json) (v : option json) :
  date ≠ "" → slot ≠ "" →
  readData w = (Returned data, w1) →
  slot ∈ default [] (data !! date) →
  post_book (BookRequest (Some date) (Some slot) c v) w =
    (Returned (Response 409 (FailureBody "Ce créneau est déjà réservé")), w1).
Proof.
  intros Hd Hs Hread Hin.
  rewrite (post_book_run _ _ _ _ _ _ _ Hd Hs Hread (property_of_booked _ _ _ Hin)).
  cbn zeta. apply includes_true in Hin. by rewrite Hin.
Qed.

(** X8: when the write of a Book fails, for a date whose lookup does not
    fall on an inherited property, the answer is 500, not a success, and the
    data file is as the read left it. *)
Theorem book_write_failure
    (w w1 : world) (data : Store) (date slot : string)
    (c : option json) (v : option json) :
  date ≠ "" → slot ≠ "" →
  readData w = (Returned data, w1) →
  property_of data date ≠ Inherited →
  slot ∉ default [] (data !! date) →
  write_ok w1 = false →
  ∃ w2,
    post_book (BookRequest (Some date) (Some slot) c v) w =
      (Returned (Response 500 (FailureBody "Erreur lors de la sauvegarde")), w2) ∧
    file w2 = file w1 ∧ stored (file w2) = data.
Proof.
  intros Hd Hs Hread Hprop Hnew Hbad.
  rewrite (post_book_run _ _ _ _ _ _ _ Hd Hs Hread Hprop). cbn zeta.
  apply includes_false in Hnew. rewrite Hnew.
  match goal with |- context [writeData ?st w1] =>
    destruct (writeData_failed st w1 Hbad) as (w2 & -> & Hf)
  end.
  eexists. split; [reflexivity|]. split; [done|].
  destruct (readData_returned _ _ _ Hread) as (-> & Hst & _). by rewrite Hf.
Qed.

(** X9: on a data file that cannot be read or parsed the store reads as
    empty, so a Book for a date that names no inherited property replaces
    the file by a store that holds the new booking only.  It answers 200,
    unless the client's name cannot be turned into a string. *)
Theorem book_on_unreadable_file
    (w : world) (date slot : string)
    (c : option json) (v : option json) :
  date ≠ "" → slot ≠ "" → Js.inherited date = false →
  file w = Unreadable → write_ok w = true →
  ∃ w2,
    post_book (BookRequest (Some date) (Some slot) c v) w =
      (match Json.to_string (client_label c) with
       | Some _ => Returned (Response 200 (BookedBody date slot))
       | None => Thrown TypeError
       end, w2) ∧
    file w2 = Holds {[date := [slot]]}.
Proof.
  intros Hd Hs Hinh Hf Hok.
  destruct (readData_existing w) as (w1 & Hread & Hf1 & Hfl & _); [by rewrite Hf|].
  rewrite Hf in Hread. cbn in Hread.
  rewrite (post_book_run _ _ _ _ _ _ _ Hd Hs Hread)
    by (intros [_ ?]%property_of_inherited; congruence).
  cbn zeta. rewrite lookup_empty. cbn.
  assert (Js.includes [] slot = false) as ->
    by apply includes_false, not_elem_of_nil.
  assert (write_ok w1 = true) as Hok1 by (unfold write_ok in *; by rewrite Hfl).
  match goal with |- context [writeData ?st w1] =>
    destruct (writeData_ok st w1 Hok1) as (w2 & -> & Hf2)
  end.
  destruct (Json.to_string (client_label c));
    (eexists; split; [reflexivity|]; cbn; by rewrite Hf2, insert_empty).
Qed.

(** X10: the exceptions that can escape a Book are three.  The creation of
    a missing data file fails: the file is still missing.  The date names an
    inherited property and is not a date of the store: the TypeError comes
    before any write and the store is as before.  The client's name cannot
    be turned into a string: the TypeError comes after the write, and the
    file holds the new booking although no success was answered. *)
Theorem book_exceptions
    (req : book_request) (w w' : world) (e : exn) :
  post_book req w = (Thrown e, w') →
  (e = IOError ∧ file w = Missing ∧ write_ok w = false ∧ file w' = Missing) ∨
  (e = TypeError ∧
   ∃ date, req_date req = Some date ∧
           stored (file w) !! date = None ∧ Js.inherited date = true ∧
           stored (file w') = stored (file w)) ∨
  (e = TypeError ∧
   Json.to_string (client_label (req_client req)) = None ∧
   ∃ date slot, req_date req = Some date ∧ req_slot req = Some slot ∧
                (slot ∉ default [] (stored (file w) !! date)) ∧
                file w' =
                  Holds (<[date := (default [] (stored (file w) !! date)
                                    ++ [slot])%list]> (stored (file w)))).
Proof.
  intros Hbook.
  destruct (required (req_date req)) as [date|] eqn:Hd;
    [destruct (required (req_slot req)) as [slot|] eqn:Hs|];
    [|by rewrite post_book_missing_field in Hbook by auto..].
  destruct req as [d s c v]. cbn in Hd, Hs.
  apply required_Some in Hd as [-> Hd]. apply required_Some in Hs as [-> Hs].
  cbn [req_date req_slot req_client].
  destruct (readData w) as [[data|e0] w1] eqn:Hread.
  - destruct (readData_returned _ _ _ Hread) as (-> & Hst & _).
    destruct (decide (property_of (stored (file w)) date = Inherited)) as [Hp | Hp].
    { rewrite (post_book_inherited _ _ _ _ _ _ _ Hd Hs Hread Hp) in Hbook.
      injection Hbook as <- <-. right. left. split; [done|].
      apply property_of_inherited in Hp as [? ?]. by exists date. }
    rewrite (post_book_run _ _ _ _ _ _ _ Hd Hs Hread Hp) in Hbook. cbn zeta in Hbook.
    destruct (Js.includes _ slot) eqn:Hinc; [discriminate|].
    apply includes_false in Hinc.
    match type of Hbook with context [writeData ?st w1] =>
      destruct (writeData_cases st w1) as [(w2 & Hw & Hf) | (w2 & Hw & _)];
      rewrite Hw in Hbook; [|discriminate]
    end.
    destruct (Json.to_string (client_label c)) eqn:Hname; [discriminate|].
    injection Hbook as <- <-. right. right. split_and!; [done..|].
    by exists date, slot.
  - rewrite (post_book_read_thrown _ _ _ _ _ _ _ Hd Hs Hread) in Hbook.
    injection Hbook as -> ->. left.
    destruct (file w) eqn:Hf;
      [|destruct (readData_existing w) as (? & Hr & _);
        [by rewrite Hf|by rewrite Hr in Hread]..].
    destruct (readData_missing w Hf) as (Hgood & Hbad & _).
    destruct (write_ok w) eqn:Hok.
    + destruct (Hgood eq_refl) as (? & Hr & _). by rewrite Hr in Hread.
    + destruct (Hbad eq_refl) as (? & Hr & ?). rewrite Hr in Hread.
      by injection Hread as <- <-.
Qed.

(** X11: no Book removes a booking, and the only pair a Book can add is the
    pair of its request.  After a 200 the pair is booked; after any other
    answer (400, 409 or 500) the store is as before. *)
Theorem book_adds_at_most_its_pair
    (req : book_request) (w : world) (d s : string) :
  (s ∈ default [] (stored (file w) !! d) →
   s ∈ default [] (stored (file (post_book req w).2) !! d)) ∧
  (s ∈ default [] (stored (file (post_book req w).2) !! d) →
   s ∈ default [] (stored (file w) !! d) ∨
   (req_date req = Some d ∧ req_slot req = Some s)) ∧
  ((post_book req w).1 = Returned (Response 200 (BookedBody d s)) →
   s ∈ default [] (stored (file (post_book req w).2) !! d)) ∧
  (∀ st b, (post_book req w).1 = Returned (Response st b) → st ≠ 200 →
           stored (file (post_book req w).2) = stored (file w)).
Proof.
  destruct (post_book_outcomes req w)
    as [[Hst Hno] | (date & slot & Hrd & Hrs & _ & Hf & Hr)].
  - rewrite Hst. split_and!; [done|by left| |done].
    intros Hr. by apply Hno in Hr.
  - rewrite Hf. cbn [stored]. split_and!.
    + intros Hin. destruct (decide (d = date)) as [-> | Hne].
      * rewrite lookup_insert_eq. cbn. apply elem_of_app. by left.
      * by rewrite lookup_insert_ne.
    + destruct (decide (d = date)) as [-> | Hne].
      * rewrite lookup_insert_eq. cbn. rewrite elem_of_app, list_elem_of_singleton.
        intros [? | ->]; [by left|by right].
      * rewrite lookup_insert_ne by done. by left.
    + rewrite Hr. destruct (Json.to_string _); [|discriminate].
      intros [= <- <-]. rewrite lookup_insert_eq. cbn.
      apply elem_of_app. right. by apply list_elem_of_singleton.
    + intros st b. rewrite Hr. destruct (Json.to_string _); [|discriminate].
      by intros [= <- _].
Qed.

(** ** [DELETE /booking/:id] *)

Lemma split_segments_lack_separator sep s seg :
  seg ∈ Js.split sep s → Js.occurs sep seg = false.
Proof.
  revert seg. induction s as [|c s IH]; cbn; intros seg.
  - by intros ->%list_elem_of_singleton.
  - destruct (Ascii.eqb c sep) eqn:Hc.
    + intros [-> | ?]%elem_of_cons; [done|by apply IH].
    + destruct (Js.split sep s) as [|seg0 segs].
      * intros ->%list_elem_of_singleton. cbn. by rewrite Hc.
      * intros [-> | ?]%elem_of_cons.
        -- cbn. rewrite Hc. apply IH. by left.
        -- apply IH. by right.
Qed.

Lemma split_with_separator sep s :
  Js.occurs sep s = true → ∃ a b rest, Js.split sep s = a :: b :: rest.
Proof.
  induction s as [|c s IH]; cbn; [done|].
  destruct (Ascii.eqb c sep); cbn.
  - intros _. destruct s as [|c' s']; cbn; [by eauto|].
    destruct (Ascii.eqb c' sep); [by eauto|].
    destruct (Js.split sep s'); by eauto.
  - intros (a & b & rest & ->)%IH. by eauto.
Qed.

Lemma decode_id_date_lacks_dash id date slot :
  decode_id id = Some (date, slot) → Js.occurs "-" date = false.
Proof.
  unfold decode_id. destruct (Js.split "-" id) as [|a [|b rest]] eqn:Hsplit;
    [done..|]. intros [= <- _].
  apply (split_segments_lack_separator _ id). rewrite Hsplit. by left.
Qed.

Lemma readData_throws_IOError w e w1 :
  readData w = (Thrown e, w1) → e = IOError.
Proof.
  destruct w as [f fl lg con].
  unfold readData, Fs.existsSync, Fs.readJSON, Fs.writeFileSync. run_io.
  destruct f as [| |d]; cbn; [destruct fl as [|[] fl]; cbn|..];
    by intros [= <- <-].
Qed.

(** The two ways a Cancel can end: the store is as before and the answer is
    no success, or the answer is a success and the decoded slot has been
    filtered out of the decoded date. *)
Lemma delete_booking_outcomes id w :
  (stored (file (delete_booking id w).2) = stored (file w) ∧
   ∀ b, (delete_booking id w).1 ≠ Returned (Response 200 b)) ∨
  (∃ date slot,
     decode_id id = Some (date, slot) ∧
     (delete_booking id w).1 =
       Returned (Response 200 (DeletedBody "Réservation supprimée avec succès")) ∧
     slot ∈ default [] (stored (file w) !! date) ∧
     stored (file (delete_booking id w).2) =
       let remaining := filter (λ s, s ≠ slot) (default [] (stored (file w) !! date)) in
       if Nat.eqb (length remaining) 0 then delete date (stored (file w))
       else <[date := remaining]> (stored (file w))).
Proof.
  destruct (decode_id id) as [[date slot]|] eqn:Hid;
    [|rewrite delete_booking_undecodable by done; by left].
  destruct (readData w) as [[data|e] w1] eqn:Hread.
  - destruct (readData_returned _ _ _ Hread) as (-> & Hst & _).
    destruct (decide (property_of (stored (file w)) date = Inherited)) as [Hp | Hp];
      [rewrite (delete_booking_inherited _ _ _ _ _ _ Hid Hread Hp); cbn; left;
       by rewrite Hst|].
    rewrite (delete_booking_run _ _ _ _ _ _ Hid Hread Hp). cbn zeta.
    destruct (Js.includes _ slot) eqn:Hinc; cbn; [|left; by rewrite Hst].
    apply includes_true in Hinc.
    match goal with |- context [writeData ?st w1] =>
      destruct (writeData_cases st w1) as [(w2 & -> & Hf) | (w2 & -> & Hf)]
    end; cbn; rewrite Hf; cbn.
    + right. by exists date, slot.
    + left. by rewrite Hst.
  - rewrite (delete_booking_read_thrown _ _ _ _ _ _ Hid Hread). cbn.
    left. by rewrite (readData_thrown _ _ _ Hread).
Qed.

(** X12: Cancel changes the set of bookings by exactly the pair its id
    decodes to: a pair is booked afterwards if and only if it was booked
    before and is not the decoded pair of a 200 answer.  No Cancel adds a
    booking, and no Cancel removes any other pair. *)
Theorem cancel_removes_exactly_the_decoded_pair
    (bookingId : string) (w : world) (d s : string) :
  s ∈ default [] (stored (file (delete_booking bookingId w).2) !! d) ↔
  s ∈ default [] (stored (file w) !! d) ∧
  ¬ (decode_id bookingId = Some (d, s) ∧
     ∃ b, (delete_booking bookingId w).1 = Returned (Response 200 b)).
Proof.
  destruct (delete_booking_outcomes bookingId w)
    as [[Hst Hno] | (date & slot & Hid & Hr & Hin & Hst)]; rewrite Hst.
  - split; [|by intros [? _]]. intros ?. split; [done|].
    intros (_ & b & Hr). by apply Hno in Hr.
  - cbn zeta. rewrite Hid, Hr.
    set (remaining := filter (λ x, x ≠ slot) (default [] (stored (file w) !! date))).
    destruct (decide (d = date)) as [-> | Hne].
    + assert (default [] ((if Nat.eqb (length remaining) 0
                           then delete date (stored (file w))
                           else <[date := remaining]> (stored (file w))) !! date)
              = remaining) as ->.
      { destruct (Nat.eqb_spec (length remaining) 0) as [Hlen | _].
        - rewrite lookup_delete_eq. by apply nil_length_inv in Hlen as ->.
        - by rewrite lookup_insert_eq. }
      unfold remaining. rewrite list_elem_of_filter. split.
      * intros [Hs ?]. split; [done|]. intros ([= ->] & _). done.
      * intros [? Hnot]. split; [|done]. intros ->. apply Hnot. eauto.
    + assert ((if Nat.eqb (length remaining) 0
               then delete date (stored (file w))
               else <[date := remaining]> (stored (file w))) !! d
              = stored (file w) !! d) as ->.
      { destruct (Nat.eqb _ 0);
          [by rewrite lookup_delete_ne|by rewrite lookup_insert_ne]. }
      split; [|by intros [? _]]. intros ?. split; [done|].
      intros ([= -> _] & _). done.
Qed.

(** X13: on a working disk, Cancel of an id that decodes to a booked pair
    answers 200, removes the slot, keeps the other slots of the date, and
    drops the date from the store when the slot was its only one. *)
Theorem cancel_removes_decoded_pair
    (bookingId date slot : string) (w : world) (data : Store) :
  decode_id bookingId = Some (date, slot) →
  file w = Holds data → slot ∈ default [] (data !! date) →
  write_ok w = true →
  ∃ w',
    delete_booking bookingId w =
      (Returned (Response 200 (DeletedBody "Réservation supprimée avec succès")), w') ∧
    (slot ∉ default [] (stored (file w') !! date)) ∧
    (∀ s, s ≠ slot →
       s ∈ default [] (stored (file w') !! date) ↔ s ∈ default [] (data !! date)) ∧
    (default [] (data !! date) = [slot] → stored (file w') !! date = None).
Proof. apply delete_booking_removes. Qed.

(** X14: when the write of a Cancel fails the answer is 500, not a
    success, and the data file still holds the booking. *)
Theorem cancel_write_failure
    (bookingId date slot : string) (w : world) (data : Store) :
  decode_id bookingId = Some (date, slot) →
  file w = Holds data → slot ∈ default [] (data !! date) →
  write_ok w = false →
  ∃ w',
    delete_booking bookingId w =
      (Returned (Response 500 (FailureBody "Erreur lors de la suppression")), w') ∧
    file w' = Holds data.
Proof.
  intros Hid Hf Hin Hbad.
  rewrite (delete_booking_run _ _ _ _ _ _ Hid (readData_Holds _ _ Hf)
             (property_of_booked _ _ _ Hin)). cbn zeta.
  apply includes_true in Hin. rewrite Hin.
  match goal with |- context [writeData ?st ?w0] =>
    destruct (writeData_failed st w0) as (w2 & -> & Hf2); [done|]
  end.
  eexists. split; [reflexivity|]. by rewrite Hf2.
Qed.

(** X15: a Cancel that answers 200 has decoded its id to a date without any
    dash and to a slot booked on that date. *)
Theorem cancel_success_needs_dashless_date
    (bookingId : string) (w w' : world) (b : body) :
  delete_booking bookingId w = (Returned (Response 200 b), w') →
  ∃ date slot,
    decode_id bookingId = Some (date, slot) ∧
    Js.occurs "-" date = false ∧
    slot ∈ default [] (stored (file w) !! date).
Proof.
  intros Hdel.
  destruct (delete_booking_outcomes bookingId w)
    as [[_ Hno] | (date & slot & Hid & _ & Hin & _)].
  - rewrite Hdel in Hno. by destruct (Hno b).
  - exists date, slot. split_and!; [done| |done].
    by apply (decode_id_date_lacks_dash bookingId date slot).
Qed.

(** X16: a store all of whose dates contain a dash, as every YYYY-MM-DD
    date does, cannot be changed through Cancel: whatever the id, the answer
    is not a success and the store is as before. *)
Theorem cancel_cannot_change_dashed_dates (bookingId : string) (w : world) :
  map_Forall (λ date _, Js.occurs "-" date = true) (stored (file w)) →
  stored (file (delete_booking bookingId w).2) = stored (file w) ∧
  ∀ b, (delete_booking bookingId w).1 ≠ Returned (Response 200 b).
Proof.
  intros Hdashed.
  destruct (delete_booking_outcomes bookingId w)
    as [? | (date & slot & Hid & _ & Hin & _)]; [done|].
  apply decode_id_date_lacks_dash in Hid.
  destruct (stored (file w) !! date) as [arr|] eqn:Hl;
    [|by apply not_elem_of_nil in Hin].
  by rewrite (Hdashed date arr Hl) in Hid.
Qed.

Lemma readData_not_readable w :
  readable w = false → ∃ w1, readData w = (Thrown IOError, w1).
Proof.
  destruct w as [f fl lg con].
  unfold readable, readData, Fs.existsSync, Fs.readJSON, Fs.writeFileSync. run_io.
  destruct f as [| |d]; cbn; [destruct fl as [|[] fl]; cbn|..];
    intros ?; try discriminate; eauto.
Qed.

(** X17: the decoding step yields a pair exactly for the ids with a dash,
    and Cancel ends in a TypeError in two cases only: the id has no dash,
    or the store has been read and the decoded date names an inherited
    property without being a date of the store. *)
Theorem cancel_type_errors (bookingId : string) (w : world) :
  ((delete_booking bookingId w).1 = Thrown TypeError ↔
   Js.occurs "-" bookingId = false ∨
   ∃ date slot, decode_id bookingId = Some (date, slot) ∧ readable w = true ∧
                stored (file w) !! date = None ∧ Js.inherited date = true) ∧
  (is_Some (decode_id bookingId) ↔ Js.occurs "-" bookingId = true).
Proof.
  destruct (Js.occurs "-" bookingId) eqn:Hdash.
  - destruct (split_with_separator _ _ Hdash) as (a & t & rest & Hsplit).
    assert (∃ p, decode_id bookingId = Some p) as [[date slot] Hid]
      by (unfold decode_id; rewrite Hsplit; eauto).
    split; [|by rewrite Hid].
    destruct (readable w) eqn:Hreadable.
    + destruct (readData_readable w Hreadable) as (w1 & Hread).
      destruct (decide (property_of (stored (file w)) date = Inherited)) as [Hp | Hp].
      * rewrite (delete_booking_inherited _ _ _ _ _ _ Hid Hread Hp). cbn.
        split; [|done]. intros _. right.
        apply property_of_inherited in Hp as [? ?]. by exists date, slot.
      * split.
        -- rewrite (delete_booking_run _ _ _ _ _ _ Hid Hread Hp). cbn zeta.
           destruct (Js.includes _ slot); [|done].
           match goal with |- context [writeData ?st w1] =>
             destruct (writeData_cases st w1) as [(w2 & -> & _) | (w2 & -> & _)]
           end; done.
        -- intros [? | (d & s' & Hid' & _ & Hnone & Hinh)]; [done|].
           rewrite Hid in Hid'. injection Hid' as <- <-.
           destruct Hp. by apply property_of_inherited.
    + destruct (readData_not_readable w Hreadable) as (w1 & Hread).
      rewrite (delete_booking_read_thrown _ _ _ _ _ _ Hid Hread). cbn.
      split; [done|]. by intros [? | (? & ? & _ & ? & _)].
  - assert (decode_id bookingId = None) as Hid
      by (unfold decode_id; by rewrite split_without_separator).
    split.
    + rewrite delete_booking_undecodable by done. cbn. split; [by left|done].
    + rewrite Hid. split; [by intros [? ?]|done].
Qed.

(** ** Which identifiers decode back *)

Lemma split_nonempty sep s : ∃ seg segs, Js.split sep s = seg :: segs.
Proof.
  destruct s as [|c s]; cbn; [by eauto|].
  destruct (Ascii.eqb c sep); [by eauto|].
  destruct (Js.split sep s); by eauto.
Qed.

(** The second segment of an id: the slot up to its first colon or dash. *)
Lemma first_segment_nil :
  hd "" (Js.split "-" (Js.replace ":" "-" "")) = "".
Proof. reflexivity. Qed.

Lemma first_segment_cons c s :
  hd "" (Js.split "-" (Js.replace ":" "-" (String c s))) =
    if Ascii.eqb c ":" || Ascii.eqb c "-" then ""
    else String c (hd "" (Js.split "-" (Js.replace ":" "-" s))).
Proof.
  cbn [Js.replace]. destruct (Ascii.eqb c ":") eqn:Hcolon; cbn [orb].
  - reflexivity.
  - cbn [Js.split]. destruct (Ascii.eqb c "-"); [reflexivity|].
    by destruct (split_nonempty "-" (Js.replace ":" "-" s)) as (seg & segs & ->).
Qed.

Lemma decode_booking_id_dashless date slot :
  Js.occurs "-" date = false →
  decode_id (booking_id date slot) =
    let time := hd "" (Js.split "-" (Js.replace ":" "-" slot)) in
    Some (date, Js.substring time 0 (Some 2) +:+ ":" +:+ Js.substring time 3 None).
Proof.
  intros Hdash. unfold decode_id, booking_id.
  change ("-" +:+ ?x) with (String "-" x).
  rewrite split_at_first_separator by done.
  by destruct (split_nonempty "-" (Js.replace ":" "-" slot)) as (seg & segs & ->).
Qed.

Lemma decode_booking_id_dashed date slot :
  Js.occurs "-" date = true →
  ∀ slot', decode_id (booking_id date slot) ≠ Some (date, slot').
Proof.
  intros Hdash slot'. unfold decode_id, booking_id.
  destruct (split_head_shorter "-" date ("-" +:+ Js.replace ":" "-" slot) Hdash)
    as (seg & rest & -> & Hlen).
  destruct rest; [done|]. intros [= -> _]. lia.
Qed.

(** X18: the id of a pair decodes back to that pair exactly when the date
    has no dash and the slot is at most two characters, neither a dash nor a
    colon, followed by a single final colon.  No pair with a YYYY-MM-DD date
    or an HH:MM slot is of that form. *)
Theorem id_round_trip_iff (date slot : string) :
  decode_id (booking_id date slot) = Some (date, slot) ↔
  Js.occurs "-" date = false ∧
  ∃ p, slot = p +:+ ":" ∧ (String.length p ≤ 2)%nat ∧
       Js.occurs "-" p = false ∧ Js.occurs ":" p = false.
Proof.
  destruct (Js.occurs "-" date) eqn:Hdash.
  { split; [|by intros [? _]].
    intros H. by apply decode_booking_id_dashed in H. }
  rewrite decode_booking_id_dashless by done. cbn zeta. split.
  - intros [= Hslot]. split; [done|]. revert Hslot.
    destruct slot as [|c1 [|c2 [|c3 r]]];
      rewrite ?first_segment_cons, ?first_segment_nil;
      repeat match goal with
      | |- context [Ascii.eqb ?c ?c'] =>
          let E := fresh "E" in
          destruct (Ascii.eqb c c') eqn:E;
          [apply Ascii.eqb_eq in E; subst|]
      end; cbn [orb];
      try (vm_compute; discriminate); intros Hslot.
    + exists "". split_and!; [reflexivity|cbn; lia|reflexivity..].
    + exists (String c1 ""). cbn.
      repeat match goal with E : Ascii.eqb _ _ = false |- _ => rewrite E; clear E end.
      split_and!; (done || lia).
    + vm_compute in Hslot. injection Hslot as <-.
      exists (String c1 (String c2 "")). cbn.
      repeat match goal with E : Ascii.eqb _ _ = false |- _ => rewrite E; clear E end.
      split_and!; (done || lia).
    + vm_compute in Hslot. injection Hslot as Hc3 _. subst c3.
      match goal with E : Ascii.eqb ":" ":" = false |- _ => discriminate E end.
  - intros (_ & p & -> & Hlen & Hd & Hc). f_equal. f_equal.
    destruct p as [|c1 [|c2 [|c3 r]]]; cbn in Hlen, Hd, Hc; [..|lia].
    + reflexivity.
    + apply orb_false_elim in Hd as [Hd _]. apply orb_false_elim in Hc as [Hc _].
      change (String c1 "" +:+ ":") with (String c1 (String ":" "")).
      rewrite !first_segment_cons, Hd, Hc. reflexivity.
    + apply orb_false_elim in Hd as [Hd1 [Hd2 _]%orb_false_elim].
      apply orb_false_elim in Hc as [Hc1 [Hc2 _]%orb_false_elim].
      change (String c1 (String c2 "") +:+ ":")
        with (String c1 (String c2 (String ":" ""))).
      rewrite !first_segment_cons, Hd1, Hc1, Hd2, Hc2. reflexivity.
Qed.

(** X19: whatever the store and the date, after a successful Book of a slot
    of either template the Cancel on the id of that booking leaves the slot
    booked, whatever it answers. *)
Theorem book_then_cancel_keeps_template_slot
    (w w1 w2 : world) (date slot : string)
    (c : option json) (v : option json) (r : outcome response) :
  slot ∈ DEFAULT_SLOTS ∨ slot ∈ SATURDAY_SLOTS →
  post_book (BookRequest (Some date) (Some slot) c v) w =
    (Returned (Response 200 (BookedBody date slot)), w1) →
  delete_booking (booking_id date slot) w1 = (r, w2) →
  slot ∈ default [] (stored (file w2) !! date).
Proof. apply cancel_keeps_template_slot_booked. Qed.

(** ** [GET /slots] and [GET /bookings], alone and after a Book *)

Lemma flat_map_bind {A B} (f : A → list B) (l : list A) : flat_map f l = l ≫= f.
Proof. induction l as [|x l IH]; [done|]. cbn. by rewrite IH. Qed.

Lemma map_fmap {A B} (f : A → B) (l : list A) : map f l = f <$> l.
Proof. induction l as [|x l IH]; [done|]. cbn. by rewrite IH. Qed.

Lemma post_book_success_nonempty date slot c v w b w1 :
  post_book (BookRequest (Some date) (Some slot) c v) w =
    (Returned (Response 200 b), w1) →
  date ≠ "" ∧ slot ≠ "".
Proof.
  intros Hbook. split; intros ->.
  - by rewrite post_book_missing_field in Hbook by (left; reflexivity).
  - by rewrite post_book_missing_field in Hbook by (right; reflexivity).
Qed.

(** X20: after a successful Book, GetAvailability for the same date lists
    the slot as booked and not as available, whatever [getDay] says of the
    date. *)
Theorem book_then_slots
    (getDay : string → option nat) (w w1 : world) (date slot : string)
    (c : option json) (v : option json) :
  post_book (BookRequest (Some date) (Some slot) c v) w =
    (Returned (Response 200 (BookedBody date slot)), w1) →
  ∃ available booked,
    get_slots getDay (Some date) w1 =
      (Returned (Response 200 (SlotsBody date available booked)), after_read w1) ∧
    slot ∈ booked ∧ slot ∉ available.
Proof.
  intros Hbook.
  destruct (post_book_success_nonempty _ _ _ _ _ _ _ Hbook) as [Hd _].
  destruct (post_book_success _ _ _ _ _ _ _ Hbook) as (data & Hf & Hin).
  do 2 eexists.
  split; [apply get_slots_run;
          [done|by apply readData_Holds|by eapply property_of_booked]|].
  split; [done|]. rewrite list_elem_of_filter. tauto.
Qed.

(** X21: after a successful Book, ListBookings lists the booking with its
    id, and [totalBookings] is the length of the list. *)
Theorem book_then_bookings
    (w w1 : world) (date slot : string)
    (c : option json) (v : option json) :
  post_book (BookRequest (Some date) (Some slot) c v) w =
    (Returned (Response 200 (BookedBody date slot)), w1) →
  ∃ bookings,
    get_bookings w1 =
      (Returned (Response 200 (BookingsBody (length bookings) bookings)),
       after_read w1) ∧
    Booking date slot (booking_id date slot) ∈ bookings.
Proof.
  intros Hbook.
  destruct (post_book_success _ _ _ _ _ _ _ Hbook) as (data & Hf & Hin).
  destruct (get_bookings_lists _ _ _ (readData_Holds _ _ Hf)) as (bookings & Hget & Hmem).
  exists bookings. split; [done|]. by apply Hmem.
Qed.

(** X22: ListBookings lists exactly the pairs of the store, each with the
    id built from it, and counts them in [totalBookings]; when no date of
    the store holds a slot twice, no booking is listed twice. *)
Theorem bookings_are_the_store (w w1 : world) (data : Store) :
  readData w = (Returned data, w1) →
  ∃ bookings,
    get_bookings w =
      (Returned (Response 200 (BookingsBody (length bookings) bookings)), w1) ∧
    (∀ b, b ∈ bookings ↔
       b_slot b ∈ default [] (data !! b_date b) ∧
       b_id b = booking_id (b_date b) (b_slot b)) ∧
    (data = ∅ → bookings = []) ∧
    (map_Forall (λ _ arr, NoDup arr) data → NoDup bookings).
Proof.
  intros Hread.
  destruct (get_bookings_lists _ _ _ Hread) as (bookings & Hget & Hmem).
  exists bookings. split_and!; [done|done|..].
  - intros ->. unfold get_bookings in Hget. run_io. rewrite Hread in Hget.
    rewrite map_to_list_empty in Hget. by injection Hget as _ <-.
  - intros Hnodup. unfold get_bookings in Hget. run_io. rewrite Hread in Hget.
    injection Hget as _ <-. rewrite flat_map_bind. apply NoDup_bind.
    + intros [d1 a1] [d2 a2] b H1%elem_of_map_to_list H2%elem_of_map_to_list.
      rewrite !map_fmap, !list_elem_of_fmap.
      intros (s1 & -> & _) (s2 & [= -> _] & _). congruence.
    + intros [d arr] Hin%elem_of_map_to_list. rewrite map_fmap.
      apply NoDup_fmap_2_strong; [|by apply (Hnodup d arr)].
      by intros s1 s2 _ _ [= ->].
    + apply NoDup_map_to_list.
Qed.

(** X23: GetAvailability and ListBookings never change the store, whatever
    the request and whatever the outcome. *)
Theorem reads_keep_the_store
    (getDay : string → option nat) (date : option string) (w : world) :
  stored (file (get_slots getDay date w).2) = stored (file w) ∧
  stored (file (get_bookings w).2) = stored (file w).
Proof.
  split.
  - destruct (required date) as [d|] eqn:Hd;
      [|unfold get_slots; by rewrite Hd].
    apply required_Some in Hd as [-> Hd].
    destruct (readData w) as [[data|e] w1] eqn:Hread.
    + destruct (readData_returned _ _ _ Hread) as (_ & Hst & _).
      destruct (decide (property_of data d = Inherited)) as [Hp | Hp].
      * by rewrite (get_slots_inherited _ _ _ _ _ Hd Hread Hp).
      * by rewrite (get_slots_run _ _ _ _ _ Hd Hread Hp).
    + unfold get_slots. rewrite required_nonempty by done. run_io.
      rewrite Hread. cbn. by rewrite (readData_thrown _ _ _ Hread).
  - unfold get_bookings. run_io.
    destruct (readData w) as [[data|e] w1] eqn:Hread; cbn.
    + by destruct (readData_returned _ _ _ Hread) as (_ & ? & _).
    + by rewrite (readData_thrown _ _ _ Hread).
Qed.

(** X24: GetAvailability is repeatable: asked again right after it has
    answered, it gives the same answer, and from then on it does not touch
    the data file. *)
Theorem slots_repeatable
    (getDay : string → option nat) (date : option string)
    (w w1 : world) (r : response) :
  get_slots getDay date w = (Returned r, w1) →
  ∃ w2, get_slots getDay date w1 = (Returned r, w2) ∧ file w2 = file w1.
Proof.
  destruct (required date) as [d|] eqn:Hd.
  - apply required_Some in Hd as [-> Hd].
    destruct (readData w) as [[data|e] w0] eqn:Hread;
      [|unfold get_slots; rewrite required_nonempty by done; run_io;
        by rewrite Hread].
    destruct (decide (property_of data d = Inherited)) as [Hp | Hp];
      [by rewrite (get_slots_inherited _ _ _ _ _ Hd Hread Hp)|].
    rewrite (get_slots_run _ _ _ _ _ Hd Hread Hp). intros [= <- <-].
    destruct (readData_returned _ _ _ Hread) as (-> & Hst & _).
    assert (file w0 ≠ Missing) as Hf.
    { destruct w as [f fl lg con]. revert Hread.
      unfold readData, Fs.existsSync, Fs.readJSON, Fs.writeFileSync. run_io.
      destruct f as [| |d0]; cbn; [destruct fl as [|[] fl]; cbn|..];
        by intros [= <-]. }
    destruct (readData_existing w0 Hf) as (w2 & Hread2 & Hf2 & _).
    rewrite Hst in Hread2. exists w2.
    by rewrite (get_slots_run _ _ _ _ _ Hd Hread2 Hp).
  - unfold get_slots. rewrite Hd. intros [= <- <-]. by exists w.
Qed.

(** ** Dates that fall on inherited properties, clients, and the zone *)

(** X25: for a non-empty date whose lookup does not fall on an inherited
    property (it is a date of the store, or it names none),
    GetAvailability answers with [booked] equal to the stored list for that
    date (empty when the date has none) and with [available] equal to the
    day's template without the booked slots, in the order of the template. *)
Theorem availability_is_template_minus_booked
    (getDay : string → option nat) (w w1 : world) (data : Store) (date : string) :
  date ≠ "" → readData w = (Returned data, w1) →
  property_of data date ≠ Inherited →
  ∃ available booked,
    get_slots getDay (Some date) w =
      (Returned (Response 200 (SlotsBody date available booked)), w1) ∧
    booked = default [] (stored (file w) !! date) ∧
    available = filter (λ slot, slot ∉ booked) (slots_for getDay date) ∧
    available `sublist_of` slots_for getDay date ∧
    (∀ slot, slot ∈ available ↔ slot ∈ slots_for getDay date ∧ slot ∉ booked).
Proof.
  intros Hd Hread Hprop. do 2 eexists. split; [by apply get_slots_run|].
  destruct (readData_returned _ _ _ Hread) as (-> & _).
  split_and!; [done|done|apply sublist_filter|].
  intros slot. rewrite list_elem_of_filter. tauto.
Qed.

Lemma inherited_nonempty date : Js.inherited date = true → date ≠ "".
Proof. by intros Hinh ->. Qed.

(** X26: for a date that names an inherited property and is not a date of
    the store, GetAvailability, Book and Cancel all end in a TypeError once
    the store has been read, and none of them writes: the world is the one
    the read leaves. *)
Theorem inherited_date_throws
    (getDay : string → option nat) (w w1 : world) (data : Store)
    (date slot bookingId cancelled : string)
    (c : option json) (v : option json) :
  readData w = (Returned data, w1) →
  data !! date = None → Js.inherited date = true →
  slot ≠ "" → decode_id bookingId = Some (date, cancelled) →
  get_slots getDay (Some date) w = (Thrown TypeError, w1) ∧
  post_book (BookRequest (Some date) (Some slot) c v) w = (Thrown TypeError, w1) ∧
  delete_booking bookingId w = (Thrown TypeError, w1).
Proof.
  intros Hread Hnone Hinh Hs Hid.
  assert (property_of data date = Inherited) as Hp by (by apply property_of_inherited).
  pose proof (inherited_nonempty _ Hinh) as Hd.
  split_and!.
  - by apply (get_slots_inherited _ _ _ data).
  - by apply (post_book_inherited _ _ _ _ _ data).
  - by apply (delete_booking_inherited _ date cancelled _ data).
Qed.

(** X27: the data file, the fault schedule and the log of file calls that a
    Book leaves never depend on the client and vehicle fields; its outcome
    does not either, as long as the two clients agree on whether their name
    can be turned into a string. *)
Theorem book_effects_ignore_client_and_vehicle
    (w : world) (date slot : option string)
    (c1 c2 : option json) (v1 v2 : option json) :
  let run1 := post_book (BookRequest date slot c1 v1) w in
  let run2 := post_book (BookRequest date slot c2 v2) w in
  file run1.2 = file run2.2 ∧
  faults run1.2 = faults run2.2 ∧
  fs_log run1.2 = fs_log run2.2 ∧
  ((Json.to_string (client_label c1) = None ↔
    Json.to_string (client_label c2) = None) → run1.1 = run2.1).
Proof.
  cbn zeta.
  destruct (required date) as [d|] eqn:Hd;
    [destruct (required slot) as [s|] eqn:Hs|];
    [|rewrite !post_book_missing_field by (cbn; auto); done..].
  apply required_Some in Hd as [-> Hd]. apply required_Some in Hs as [-> Hs].
  destruct (readData w) as [[data|e] w1] eqn:Hread;
    [|by rewrite !(post_book_read_thrown _ _ _ _ _ _ _ Hd Hs Hread)].
  destruct (decide (property_of data d = Inherited)) as [Hp | Hp];
    [by rewrite !(post_book_inherited _ _ _ _ _ _ _ Hd Hs Hread Hp)|].
  rewrite !(post_book_run _ _ _ _ _ _ _ Hd Hs Hread Hp). cbn zeta.
  destruct (Js.includes _ s); [done|].
  destruct (writeData _ w1) as [[[]|e] w2]; [|done..].
  destruct (Json.to_string (client_label c1)) as [n1|],
           (Json.to_string (client_label c2)) as [n2|];
    cbn; split_and!; try done; intros [H1 H2]; try done.
  - by specialize (H2 eq_refl).
  - by specialize (H1 eq_refl).
Qed.

Lemma parsed_date_not_inherited date days :
  Calendar.parse date = Some days → Js.inherited date = false.
Proof.
  intros Hparse. destruct (Js.inherited date) eqn:Hinh; [|done].
  apply bool_decide_eq_true in Hinh. unfold Js.object_prototype_keys in Hinh.
  repeat (apply elem_of_cons in Hinh as [-> | Hinh];
          [vm_compute in Hparse; discriminate|]).
  by apply not_elem_of_nil in Hinh.
Qed.

Lemma getDay_east_of_utc offset date days :
  (0 ≤ offset < 1440)%Z → Calendar.parse date = Some days →
  Calendar.getDay offset date = Calendar.weekday date.
Proof.
  intros Hzone Hparse. unfold Calendar.getDay, Calendar.weekday.
  rewrite Hparse. cbn.
  assert (((days * 1440 + offset) / 1440 = days)%Z) as ->
    by (symmetry; apply (Z.div_unique_pos _ _ _ offset); lia).
  reflexivity.
Qed.

Lemma getDay_west_of_utc offset date days :
  (-1440 ≤ offset < 0)%Z → Calendar.parse date = Some days →
  (Calendar.getDay offset date = Some 6 ↔ Calendar.weekday date = Some 0).
Proof.
  intros Hzone Hparse. unfold Calendar.getDay, Calendar.weekday.
  rewrite Hparse. cbn.
  assert (((days * 1440 + offset) / 1440 = days - 1)%Z) as ->
    by (symmetry; apply (Z.div_unique_pos _ _ _ (offset + 1440)); lia).
  pose proof (Z.mod_pos_bound (days - 1 + 4) 7 eq_refl).
  pose proof (Z.mod_pos_bound (days + 4) 7 eq_refl).
  assert (((days - 1 + 4) mod 7 = 6 ↔ (days + 4) mod 7 = 0)%Z) as Hmod.
  { Z.div_mod_to_equations. lia. }
  split; intros [= Hday]; f_equal; lia.
Qed.

(** X28: for every well-formed YYYY-MM-DD date, GetAvailability (with the
    calendar's reading of [getDay]) works from the Saturday template exactly
    when the date is a Saturday on a server at or east of UTC, and exactly
    when the date is a Sunday on a server west of UTC. *)
Theorem template_by_zone
    (offset : Z) (w w1 : world) (data : Store) (date : string) (days : Z) :
  Calendar.parse date = Some days →
  readData w = (Returned data, w1) →
  ∃ available,
    get_slots (Calendar.getDay offset) (Some date) w =
      (Returned (Response 200
         (SlotsBody date available (default [] (data !! date)))), w1) ∧
    ((0 ≤ offset < 1440)%Z →
       available =
         filter (λ slot, slot ∉ default [] (data !! date))
           (if bool_decide (Calendar.weekday date = Some 6)
            then SATURDAY_SLOTS else DEFAULT_SLOTS)) ∧
    ((-1440 ≤ offset < 0)%Z →
       available =
         filter (λ slot, slot ∉ default [] (data !! date))
           (if bool_decide (Calendar.weekday date = Some 0)
            then SATURDAY_SLOTS else DEFAULT_SLOTS)).
Proof.
  intros Hparse Hread.
  assert (date ≠ "") as Hd by (by intros ->).
  assert (property_of data date ≠ Inherited) as Hprop.
  { intros [_ Hinh]%property_of_inherited.
    by rewrite (parsed_date_not_inherited _ _ Hparse) in Hinh. }
  eexists. split; [by apply get_slots_run|]. unfold slots_for. split; intros Hzone.
  - by rewrite (getDay_east_of_utc _ _ _ Hzone Hparse).
  - by rewrite (bool_decide_ext _ _ (getDay_west_of_utc _ _ days Hzone Hparse)).
Qed.

(** ** Runs of the further properties on concrete worlds *)

Lemma write_then_read_witness :
  readData (writeData {["2024-06-08" := ["09:00"]]} fresh).2 =
    (Returned {["2024-06-08" := ["09:00"]]},
     after_read (writeData {["2024-06-08" := ["09:00"]]} fresh).2) ∧
  file (after_read (writeData {["2024-06-08" := ["09:00"]]} fresh).2) =
    Holds {["2024-06-08" := ["09:00"]]}.
Proof.
  apply (write_then_read {["2024-06-08" := ["09:00"]]} fresh).
  vm_compute. reflexivity.
Defined.

Lemma readData_existing_file_witness :
  ∃ w1, readData booked_world = (Returned (stored (file booked_world)), w1) ∧
        file w1 = file booked_world ∧ faults w1 = faults booked_world ∧
        fs_log w1 = (fs_log booked_world ++ [ExistsSync; ReadFileSync])%list.
Proof. apply (readData_existing_file booked_world). discriminate. Defined.

Lemma readData_missing_file_witness :
  (write_ok fresh = true →
     ∃ w1, readData fresh = (Returned ∅, w1) ∧ file w1 = Holds ∅) ∧
  (write_ok fresh = false →
     ∃ w1, readData fresh = (Thrown IOError, w1) ∧ file w1 = Missing) ∧
  fs_log (readData fresh).2 = (fs_log fresh ++ [ExistsSync; WriteFileSync ∅])%list.
Proof. apply (readData_missing_file fresh). reflexivity. Defined.

Lemma book_missing_field_witness :
  post_book (BookRequest None (Some "09:00") None None) booked_world =
    (Returned (Response 400 (FailureBody "Date et créneau obligatoires")), booked_world).
Proof. apply (book_missing_field booked_world None (Some "09:00") None None). by left. Defined.

Lemma book_appends_witness :
  ∃ w2,
    post_book (BookRequest (Some "2024-06-08") (Some "10:30") None None) booked_world =
      (match Json.to_string (client_label None) with
       | Some _ => Returned (Response 200 (BookedBody "2024-06-08" "10:30"))
       | None => Thrown TypeError
       end, w2) ∧
    stored (file w2) !! "2024-06-08" =
      Some (default [] (({["2024-06-08" := ["09:00"]]} : Store) !! "2024-06-08")
            ++ ["10:30"])%list ∧
    (∀ d, d ≠ "2024-06-08" →
       stored (file w2) !! d = ({["2024-06-08" := ["09:00"]]} : Store) !! d).
Proof.
  apply (book_appends booked_world (after_read booked_world)
           {["2024-06-08" := ["09:00"]]} "2024-06-08" "10:30" None None).
  - discriminate.
  - discriminate.
  - vm_compute. reflexivity.
  - vm_compute. discriminate.
  - apply (bool_decide_unpack _). vm_compute. exact I.
  - reflexivity.
Defined.

Lemma book_conflict_witness :
  post_book saturday_request booked_world =
    (Returned (Response 409 (FailureBody "Ce créneau est déjà réservé")),
     after_read booked_world).
Proof.
  apply (book_conflict booked_world (after_read booked_world)
           {["2024-06-08" := ["09:00"]]} "2024-06-08" "09:00" None None).
  - discriminate.
  - discriminate.
  - vm_compute. reflexivity.
  - apply (bool_decide_unpack _). vm_compute. exact I.
Defined.

Lemma book_write_failure_witness :
  ∃ w2,
    post_book (BookRequest (Some "2024-06-08") (Some "10:00") None None)
      (failing_disk (Holds {["2024-06-08" := ["09:00"]]})) =
      (Returned (Response 500 (FailureBody "Erreur lors de la sauvegarde")), w2) ∧
    file w2 = file (after_read (failing_disk (Holds {["2024-06-08" := ["09:00"]]}))) ∧
    stored (file w2) = {["2024-06-08" := ["09:00"]]}.
Proof.
  apply (book_write_failure (failing_disk (Holds {["2024-06-08" := ["09:00"]]}))
           (after_read (failing_disk (Holds {["2024-06-08" := ["09:00"]]})))
           {["2024-06-08" := ["09:00"]]} "2024-06-08" "10:00" None None).
  - discriminate.
  - discriminate.
  - vm_compute. reflexivity.
  - vm_compute. discriminate.
  - apply (bool_decide_unpack _). vm_compute. exact I.
  - reflexivity.
Defined.

Lemma book_on_unreadable_file_witness :
  ∃ w2,
    post_book saturday_request unreadable_world =
      (match Json.to_string (client_label None) with
       | Some _ => Returned (Response 200 (BookedBody "2024-06-08" "09:00"))
       | None => Thrown TypeError
       end, w2) ∧
    file w2 = Holds {["2024-06-08" := ["09:00"]]}.
Proof.
  apply (book_on_unreadable_file unreadable_world "2024-06-08" "09:00" None None).
  - discriminate.
  - discriminate.
  - reflexivity.
  - reflexivity.
  - reflexivity.
Defined.

Lemma book_exceptions_witness :
  (TypeError = IOError ∧ file fresh = Missing ∧ write_ok fresh = false ∧
   file (post_book (BookRequest (Some "2024-06-08") (Some "09:00")
                      (Some unprintable_client) None) fresh).2 = Missing) ∨
  (TypeError = TypeError ∧
   ∃ date, Some "2024-06-08" = Some date ∧
           stored (file fresh) !! date = None ∧ Js.inherited date = true ∧
           stored (file (post_book (BookRequest (Some "2024-06-08") (Some "09:00")
                                      (Some unprintable_client) None) fresh).2) =
             stored (file fresh)) ∨
  (TypeError = TypeError ∧
   Json.to_string (client_label (Some unprintable_client)) = None ∧
   ∃ date slot, Some "2024-06-08" = Some date ∧ Some "09:00" = Some slot ∧
                (slot ∉ default [] (stored (file fresh) !! date)) ∧
                file (post_book (BookRequest (Some "2024-06-08") (Some "09:00")
                                   (Some unprintable_client) None) fresh).2 =
                  Holds (<[date := (default [] (stored (file fresh) !! date)
                                    ++ [slot])%list]> (stored (file fresh)))).
Proof.
  apply (book_exceptions
           (BookRequest (Some "2024-06-08") (Some "09:00") (Some unprintable_client) None)
           fresh).
  vm_compute. reflexivity.
Defined.

Lemma cancel_removes_decoded_pair_witness :
  ∃ w',
    delete_booking "2024-06-08-09-00" plain_world =
      (Returned (Response 200 (DeletedBody "Réservation supprimée avec succès")), w') ∧
    ("06:" ∉ default [] (stored (file w') !! "2024")) ∧
    (∀ s, s ≠ "06:" →
       s ∈ default [] (stored (file w') !! "2024") ↔
       s ∈ default [] (({["2024" := ["06:"; "07:"]]} : Store) !! "2024")) ∧
    (default [] (({["2024" := ["06:"; "07:"]]} : Store) !! "2024") = ["06:"] →
     stored (file w') !! "2024" = None).
Proof.
  apply (cancel_removes_decoded_pair "2024-06-08-09-00" "2024" "06:" plain_world
           {["2024" := ["06:"; "07:"]]}).
  - vm_compute. reflexivity.
  - reflexivity.
  - apply (bool_decide_unpack _). vm_compute. exact I.
  - reflexivity.
Defined.

Lemma cancel_write_failure_witness :
  ∃ w',
    delete_booking "2024-06-08-09-00"
      (failing_disk (Holds {["2024" := ["06:"; "07:"]]})) =
      (Returned (Response 500 (FailureBody "Erreur lors de la suppression")), w') ∧
    file w' = Holds {["2024" := ["06:"; "07:"]]}.
Proof.
  apply (cancel_write_failure "2024-06-08-09-00" "2024" "06:"
           (failing_disk (Holds {["2024" := ["06:"; "07:"]]}))
           {["2024" := ["06:"; "07:"]]}).
  - vm_compute. reflexivity.
  - reflexivity.
  - apply (bool_decide_unpack _). vm_compute. exact I.
  - reflexivity.
Defined.

Lemma cancel_success_needs_dashless_date_witness :
  ∃ date slot,
    decode_id "2024-06-08-09-00" = Some (date, slot) ∧
    Js.occurs "-" date = false ∧
    slot ∈ default [] (stored (file plain_world) !! date).
Proof.
  apply (cancel_success_needs_dashless_date "2024-06-08-09-00" plain_world
           (delete_booking "2024-06-08-09-00" plain_world).2
           (DeletedBody "Réservation supprimée avec succès")).
  vm_compute. reflexivity.
Defined.

Lemma cancel_cannot_change_dashed_dates_witness :
  stored (file (delete_booking "2024-06-08-09-00" booked_world).2) =
    stored (file booked_world) ∧
  ∀ b, (delete_booking "2024-06-08-09-00" booked_world).1 ≠ Returned (Response 200 b).
Proof.
  apply (cancel_cannot_change_dashed_dates "2024-06-08-09-00" booked_world).
  apply (bool_decide_unpack _). vm_compute. exact I.
Defined.

Lemma book_then_cancel_keeps_template_slot_witness :
  "09:00" ∈ default []
    (stored (file (delete_booking (booking_id "2024-06-08" "09:00")
                     (post_book saturday_request fresh).2).2) !! "2024-06-08").
Proof.
  apply (book_then_cancel_keeps_template_slot fresh
           (post_book saturday_request fresh).2
           (delete_booking (booking_id "2024-06-08" "09:00")
              (post_book saturday_request fresh).2).2
           "2024-06-08" "09:00" None None
           (delete_booking (booking_id "2024-06-08" "09:00")
              (post_book saturday_request fresh).2).1).
  - right. apply (bool_decide_unpack _). vm_compute. exact I.
  - vm_compute. reflexivity.
  - vm_compute. reflexivity.
Defined.

Lemma book_then_slots_witness :
  ∃ available booked,
    get_slots (Calendar.getDay 0) (Some "2024-06-08")
      (post_book saturday_request fresh).2 =
      (Returned (Response 200 (SlotsBody "2024-06-08" available booked)),
       after_read (post_book saturday_request fresh).2) ∧
    "09:00" ∈ booked ∧ "09:00" ∉ available.
Proof.
  apply (book_then_slots (Calendar.getDay 0) fresh
           (post_book saturday_request fresh).2 "2024-06-08" "09:00" None None).
  vm_compute. reflexivity.
Defined.

Lemma book_then_bookings_witness :
  ∃ bookings,
    get_bookings (post_book saturday_request fresh).2 =
      (Returned (Response 200 (BookingsBody (length bookings) bookings)),
       after_read (post_book saturday_request fresh).2) ∧
    Booking "2024-06-08" "09:00" (booking_id "2024-06-08" "09:00") ∈ bookings.
Proof.
  apply (book_then_bookings fresh (post_book saturday_request fresh).2
           "2024-06-08" "09:00" None None).
  vm_compute. reflexivity.
Defined.

Lemma bookings_are_the_store_witness :
  ∃ bookings,
    get_bookings booked_world =
      (Returned (Response 200 (BookingsBody (length bookings) bookings)),
       after_read booked_world) ∧
    (∀ b, b ∈ bookings ↔
       b_slot b ∈ default [] (({["2024-06-08" := ["09:00"]]} : Store) !! b_date b) ∧
       b_id b = booking_id (b_date b) (b_slot b)) ∧
    (({["2024-06-08" := ["09:00"]]} : Store) = ∅ → bookings = []) ∧
    (map_Forall (λ _ arr, NoDup arr) ({["2024-06-08" := ["09:00"]]} : Store) →
     NoDup bookings).
Proof.
  apply (bookings_are_the_store booked_world (after_read booked_world)
           {["2024-06-08" := ["09:00"]]}).
  vm_compute. reflexivity.
Defined.

Lemma slots_repeatable_witness :
  ∃ w2,
    get_slots (Calendar.getDay 0) (Some "2024-06-08") (after_read booked_world) =
      (Returned (Response 200
         (SlotsBody "2024-06-08" ["10:00"; "11:00"; "12:00"] ["09:00"])), w2) ∧
    file w2 = file (after_read booked_world).
Proof.
  apply (slots_repeatable (Calendar.getDay 0) (Some "2024-06-08") booked_world
           (after_read booked_world)).
  vm_compute. reflexivity.
Defined.

Lemma availability_is_template_minus_booked_witness :
  ∃ available booked,
    get_slots (Calendar.getDay 0) (Some "2024-06-10") booked_world =
      (Returned (Response 200 (SlotsBody "2024-06-10" available booked)),
       after_read booked_world) ∧
    booked = default [] (stored (file booked_world) !! "2024-06-10") ∧
    available = filter (λ slot, slot ∉ booked) (slots_for (Calendar.getDay 0) "2024-06-10") ∧
    available `sublist_of` slots_for (Calendar.getDay 0) "2024-06-10" ∧
    (∀ slot, slot ∈ available ↔
       slot ∈ slots_for (Calendar.getDay 0) "2024-06-10" ∧ slot ∉ booked).
Proof.
  apply (availability_is_template_minus_booked (Calendar.getDay 0) booked_world
           (after_read booked_world) {["2024-06-08" := ["09:00"]]} "2024-06-10").
  - discriminate.
  - vm_compute. reflexivity.
  - vm_compute. discriminate.
Defined.

Lemma inherited_date_throws_witness :
  get_slots (Calendar.getDay 0) (Some "constructor") booked_world =
    (Thrown TypeError, after_read booked_world) ∧
  post_book (BookRequest (Some "constructor") (Some "09:00") None None) booked_world =
    (Thrown TypeError, after_read booked_world) ∧
  delete_booking "constructor-09-00" booked_world =
    (Thrown TypeError, after_read booked_world).
Proof.
  apply (inherited_date_throws (Calendar.getDay 0) booked_world
           (after_read booked_world) {["2024-06-08" := ["09:00"]]}
           "constructor" "09:00" "constructor-09-00" "09:" None None).
  - vm_compute. reflexivity.
  - vm_compute. reflexivity.
  - reflexivity.
  - discriminate.
  - vm_compute. reflexivity.
Defined.

Lemma template_by_zone_witness :
  ∃ available,
    get_slots (Calendar.getDay (-300)) (Some "2024-06-08") booked_world =
      (Returned (Response 200
         (SlotsBody "2024-06-08" available
            (default [] (({["2024-06-08" := ["09:00"]]} : Store) !! "2024-06-08")))),
       after_read booked_world) ∧
    ((0 ≤ -300 < 1440)%Z →
       available =
         filter (λ slot, slot ∉ default []
                   (({["2024-06-08" := ["09:00"]]} : Store) !! "2024-06-08"))
           (if bool_decide (Calendar.weekday "2024-06-08" = Some 6)
            then SATURDAY_SLOTS else DEFAULT_SLOTS)) ∧
    ((-1440 ≤ -300 < 0)%Z →
       available =
         filter (λ slot, slot ∉ default []
                   (({["2024-06-08" := ["09:00"]]} : Store) !! "2024-06-08"))
           (if bool_decide (Calendar.weekday "2024-06-08" = Some 0)
            then SATURDAY_SLOTS else DEFAULT_SLOTS)).
Proof.
  apply (template_by_zone (-300) booked_world (after_read booked_world)
           {["2024-06-08" := ["09:00"]]} "2024-06-08" 19882).
  - vm_compute. reflexivity.
  - vm_compute. reflexivity.
Defined.
